(** * git_tools.py: the post-generation bootstrap script

    A shallow embedding of [scripts/git_tools.py].  The script is a linear
    sequence of shell-outs, console prints and one file write, so it is
    modelled in a state-and-exception monad over

    - the machine: the regular files of the working directory (a finite
      map from paths to nodes) together with an abstract rest of the world
      (installed packages, the [.git] directory, ...) that only child
      processes can observe and change;
    - a chronological log of what the script did: every line printed to the
      console and every child process it tried to launch, with the outcome.

    What a child process does is not in the script: it is the [spawn]
    function of a [Host].  Everything proved below holds for every host.

    Outside the model: asynchronous signals ([KeyboardInterrupt]), failures
    of [print] and of [Path.write_text], and the truncation the operating
    system applies to an exit status. *)

From Stdlib Require Import Ascii.
From stdpp Require Import base list strings gmap.

Open Scope Z_scope.
Open Scope string_scope.
Open Scope list_scope.

(** ** Python values the script handles *)

(** Where [subprocess.run] sends the child's stdout and stderr. *)
Inductive stdio := Inherit | Devnull.

(** What [subprocess.run] observes of a child: it ran and left a return
    code, or it could not be launched at all (the [OSError] family, for
    instance [FileNotFoundError]). *)
Inductive outcome :=
  | Exited (returncode : Z)
  | LaunchFailed (reason : string).

(** The argument of [SystemExit]: an integer status or a message. *)
Inductive exit_arg :=
  | ExitInt (n : Z)
  | ExitStr (msg : string).

(** The exceptions that can travel through the script.  [SystemExit]
    derives from [BaseException] only; the others derive from
    [Exception]. *)
Inductive exn :=
  | SystemExit (arg : exit_arg)
  | CalledProcessError (returncode : Z) (cmd : list string)
  | OSError (reason : string)
  | IndexError.

Definition is_Exception (e : exn) : bool :=
  match e with
  | SystemExit _ => false
  | CalledProcessError _ _ | OSError _ | IndexError => true
  end.

Inductive result (A : Type) :=
  | Ok (a : A)
  | Raise (e : exn).
Arguments Ok {A} a.
Arguments Raise {A} e.

(** ** The machine and the log *)

Inductive node :=
  | File (text : string)
  | Directory.

Record machine (W : Type) := Machine {
  files : gmap string node;
  ext : W
}.
Arguments Machine {W} files ext.
Arguments files {W} m.
Arguments ext {W} m.

Inductive event :=
  | Printed (line : string)
  | Invoked (cmd : list string) (io : stdio) (res : outcome).

(** The environment the script runs in: the interpreter's own path
    ([sys.executable]) and the behaviour of child processes. *)
Class Host := {
  world : Type;
  sys_executable : string;
  spawn : machine world → list string → stdio → outcome * machine world
}.

Section Script.
Context `{Host}.

Record state := State {
  os : machine world;
  log : list event
}.

(** A process starts with nothing printed and nothing launched. *)
Definition initial (m : machine world) : state := State m [].

(** ** The monad *)

Definition M (A : Type) : Type := state → result A * state.

Definition ret {A} (a : A) : M A := λ s, (Ok a, s).

Definition raise {A} (e : exn) : M A := λ s, (Raise e, s).

Definition bind {A B} (c : M A) (k : A → M B) : M B := λ s,
  match c s with
  | (Ok a, s') => k a s'
  | (Raise e, s') => (Raise e, s')
  end.

(** [try: body except Exception: handler] *)
Definition try_except_Exception {A} (body handler : M A) : M A := λ s,
  match body s with
  | (Ok a, s') => (Ok a, s')
  | (Raise e, s') => if is_Exception e then handler s' else (Raise e, s')
  end.

End Script.

Declare Scope script_scope.
Delimit Scope script_scope with script.
Notation "x <- c ;; k" := (bind c (λ x, k))
  (at level 100, c at next level, right associativity) : script_scope.
Notation "c ;; k" := (bind c (λ _, k))
  (at level 100, right associativity) : script_scope.
Open Scope script_scope.

Section Script.
Context `{Host}.

(** ** Library calls *)

(** [sep.join(l)] *)
Fixpoint join (sep : string) (l : list string) : string :=
  match l with
  | [] => EmptyString
  | [x] => x
  | x :: l' => x +:+ sep +:+ join sep l'
  end.

(** [print(a, b, ...)]: the arguments separated by one space, on one line. *)
Definition print (args : list string) : M unit := λ s,
  (Ok (), State (os s) (log s ++ [Printed (join " " args)])).

(** [subprocess.run(cmd, stdout=io, stderr=io, check=check).returncode] *)
Definition subprocess_run (cmd : list string) (io : stdio) (check : bool) : M Z := λ s,
  let '(o, m) := spawn (os s) cmd io in
  let s' := State m (log s ++ [Invoked cmd io o]) in
  match o with
  | Exited rc =>
      if check && bool_decide (rc ≠ 0) then (Raise (CalledProcessError rc cmd), s')
      else (Ok rc, s')
  | LaunchFailed reason => (Raise (OSError reason), s')
  end.

(** [l[i]] *)
Definition getitem (l : list string) (i : nat) : M string :=
  match l !! i with
  | Some x => ret x
  | None => raise IndexError
  end.

(** [Path(p).exists()] *)
Definition path_exists (p : string) : M bool := λ s,
  (Ok (bool_decide (is_Some (files (os s) !! p))), s).

(** [Path(p).write_text(text, encoding="utf-8")] *)
Definition write_text (p text : string) : M unit := λ s,
  (Ok (), State (Machine (<[p := File text]> (files (os s))) (ext (os s))) (log s)).

(** ** The script *)

Definition run (cmd : list string) (check : bool) : M Z :=
  print [">>>"; join " " cmd];;
  rc <- subprocess_run cmd Inherit false;;
  if check && bool_decide (rc ≠ 0) then raise (SystemExit (ExitInt rc))
  else ret rc.

Definition has_cmd (cmd : list string) : M bool :=
  try_except_Exception
    (subprocess_run cmd Devnull true;; ret true)
    (ret false).

Definition pip_install_cmd (pkg : string) : list string :=
  [sys_executable; "-m"; "pip"; "install"; "-U"; pkg].

Definition pip_install (pkg : string) : M unit :=
  run (pip_install_cmd pkg) true;; ret ().

Definition needed : list (string * list string) :=
  [ ("pre-commit", ["pre-commit"; "--version"]);
    ("nbstripout", ["python"; "-c"; "import nbstripout"]);
    ("nbautoexport", ["nbautoexport"; "--help"]) ].

(** The conditional expression that computes [ok] in the loop. *)
Definition probe_ok (probe : list string) : M bool :=
  p0 <- getitem probe 0;;
  if bool_decide (p0 ≠ "python") then has_cmd probe
  else (p2 <- getitem probe 2;; has_cmd [sys_executable; "-c"; p2]).

(** The body of the loop over [needed]. *)
Definition ensure_one (entry : string * list string) : M unit :=
  let '(pkg, probe) := entry in
  ok <- probe_ok probe;;
  if ok then print [">>> " +:+ pkg +:+ " already available"]
  else (print [">>> Installing " +:+ pkg];; pip_install pkg).

Fixpoint for_each {A} (l : list A) (body : A → M unit) : M unit :=
  match l with
  | [] => ret ()
  | x :: l' => body x;; for_each l' body
  end.

Definition ensure_pip_packages : M unit :=
  run (pip_install_cmd "pip") false;;
  for_each needed ensure_one.

Definition ensure_git_repo : M unit :=
  git <- has_cmd ["git"; "--version"];;
  if negb git then raise (SystemExit (ExitStr "ERROR: git is not installed or not in PATH."))
  else
    inside <- has_cmd ["git"; "rev-parse"; "--is-inside-work-tree"];;
    if inside then print [">>> git already initialized"]
    else (run ["git"; "init"] true;; ret ()).

Definition cfg : string := ".pre-commit-config.yaml".

Definition nl : string := String "010"%char EmptyString.

Definition payload : string :=
  join nl
    [ "repos:";
      "  - repo: https://github.com/kynan/nbstripout";
      "    rev: 0.6.1";
      "    hooks:";
      "      - id: nbstripout";
      EmptyString ].

Definition write_precommit_config : M unit :=
  present <- path_exists cfg;;
  if present then print [">>> .pre-commit-config.yaml already exists"]
  else (write_text cfg payload;; print [">>> wrote .pre-commit-config.yaml"]).

Definition install_hooks_and_configure : M unit :=
  pc <- has_cmd ["pre-commit"; "--version"];;
  (if pc then (run ["pre-commit"; "install"] false;; ret ())
   else print [">>> pre-commit still not available, skipping install"]);;
  nb <- has_cmd ["nbautoexport"; "--help"];;
  if nb then (run ["nbautoexport"; "configure"; "-f"; "script"; "notebooks"] false;; ret ())
  else print [">>> nbautoexport still not available, skipping configure"].

Definition main : M unit :=
  ensure_pip_packages;;
  ensure_git_repo;;
  write_precommit_config;;
  install_hooks_and_configure;;
  print [">>> git_tools done"].

(** ** How the interpreter ends the process

    CPython's top level: a normal return exits with status 0;
    [SystemExit(n)] with an integer hands [n] to the operating system's
    exit call; [SystemExit(msg)] with a string prints [msg] to stderr and
    exits with status 1; any other uncaught exception prints a traceback
    and exits with status 1.

    [exit_status] is the integer handed to the exit call.  What the parent
    of the process then observes is [posix_status]: on POSIX the exit call
    keeps the low eight bits, so a status in 0..255 arrives unchanged and
    the return code [-N] of a child killed by signal [N] arrives as
    [256 - N]. *)
Definition exit_status {A} (r : result A) : Z :=
  match r with
  | Ok _ => 0
  | Raise (SystemExit (ExitInt n)) => n
  | Raise _ => 1
  end.

Definition fatal_message {A} (r : result A) : option string :=
  match r with
  | Raise (SystemExit (ExitStr msg)) => Some msg
  | _ => None
  end.

Definition posix_status {A} (r : result A) : Z := exit_status r mod 256.

End Script.

(** ** Vocabulary for the statements *)

#[global] Instance stdio_eq_dec : EqDecision stdio.
Proof. solve_decision. Defined.
#[global] Instance outcome_eq_dec : EqDecision outcome.
Proof. solve_decision. Defined.
#[global] Instance event_eq_dec : EqDecision event.
Proof. solve_decision. Defined.

(** The console line that announces a command: the fixed prefix, then the
    command line. *)
Definition echo (cmd : list string) : string := ">>> " +:+ join " " cmd.

(** The lines on the console, oldest first. *)
Definition console (l : list event) : list string :=
  omap (λ e, match e with Printed line => Some line | _ => None end) l.

(** The commands launched with the given stream setting, oldest first. *)
Definition launched (io : stdio) (l : list event) : list (list string) :=
  omap (λ e, match e with
             | Invoked cmd io' _ => if decide (io' = io) then Some cmd else None
             | _ => None
             end) l.

(** A probe counts as passed exactly when the child ran and returned 0. *)
Definition passed (o : outcome) : bool :=
  match o with
  | Exited rc => bool_decide (rc = 0)
  | LaunchFailed _ => false
  end.

(** [echoed sel l]: every launch in [l] whose stream setting is selected
    by [sel] comes directly after the console line announcing it. *)
Definition echoed (sel : stdio → bool) (l : list event) : Prop :=
  ∀ i cmd io o, l !! i = Some (Invoked cmd io o) → sel io = true →
    ∃ j, i = S j ∧ l !! j = Some (Printed (echo cmd)).

Definition only_inherit (io : stdio) : bool :=
  match io with Inherit => true | Devnull => false end.

Definition every_launch (io : stdio) : bool := true.

(** A version-flag invocation: the tool's name followed by [--version]. *)
Definition is_version_probe (probe : list string) : bool :=
  match probe with
  | [_; flag] => bool_decide (flag = "--version")
  | _ => false
  end.

(** A help-flag invocation: the tool's name followed by [--help]. *)
Definition is_help_probe (probe : list string) : bool :=
  match probe with
  | [_; flag] => bool_decide (flag = "--help")
  | _ => false
  end.

(** An import check: an interpreter running [import <module>] with [-c]. *)
Definition is_import_probe (probe : list string) : bool :=
  match probe with
  | [_; flag; code] => bool_decide (flag = "-c") && String.prefix "import " code
  | _ => false
  end.

(** The configuration file as the specification prints it, each of its
    five lines ended by a newline. *)
Definition spec_payload : string :=
"repos:
  - repo: https://github.com/kynan/nbstripout
    rev: 0.6.1
    hooks:
      - id: nbstripout
".

Section Emitted.
Context `{Host}.

(** What a computation adds to the log when started in [s]. *)
Definition emitted {A} (c : M A) (s : state) : list event :=
  drop (length (log s)) (log (c s).2).

(** The command the loop hands to [has_cmd] for a probe it can index (see
    [indexable] below): the probe itself, or the interpreter's own path
    with [-c] and the probe's third element when the probe starts with
    ["python"]. *)
Definition probe_command (probe : list string) : list string :=
  match probe with
  | p0 :: rest =>
      if bool_decide (p0 ≠ "python") then probe
      else [sys_executable; "-c"; nth 1 rest EmptyString]
  | [] => []
  end.

(** A computation keeps the console honest about the commands it runs
    with inherited streams. *)
Definition keeps_echo {A} (c : M A) : Prop :=
  ∀ s, echoed only_inherit (log s) → echoed only_inherit (log (c s).2).

(** A probe the loop can index without [IndexError]. *)
Definition indexable (probe : list string) : Prop :=
  match probe with
  | [] => False
  | p0 :: rest => p0 = "python" → (1 < length rest)%nat
  end.

(** The traces one pass of the loop can leave for the package [pkg]
    probed with [cmd], with the way the pass ends. *)
Inductive tool_trace (pkg : string) (cmd : list string) : result unit → list event → Prop :=
  | tool_present :
      tool_trace pkg cmd (Ok ())
        [ Invoked cmd Devnull (Exited 0);
          Printed (">>> " +:+ pkg +:+ " already available") ]
  | tool_installed o :
      o ≠ Exited 0 →
      tool_trace pkg cmd (Ok ())
        [ Invoked cmd Devnull o;
          Printed (">>> Installing " +:+ pkg);
          Printed (echo (pip_install_cmd pkg));
          Invoked (pip_install_cmd pkg) Inherit (Exited 0) ]
  | tool_install_failed o rc :
      o ≠ Exited 0 → rc ≠ 0 →
      tool_trace pkg cmd (Raise (SystemExit (ExitInt rc)))
        [ Invoked cmd Devnull o;
          Printed (">>> Installing " +:+ pkg);
          Printed (echo (pip_install_cmd pkg));
          Invoked (pip_install_cmd pkg) Inherit (Exited rc) ]
  | tool_install_unlaunched o reason :
      o ≠ Exited 0 →
      tool_trace pkg cmd (Raise (OSError reason))
        [ Invoked cmd Devnull o;
          Printed (">>> Installing " +:+ pkg);
          Printed (echo (pip_install_cmd pkg));
          Invoked (pip_install_cmd pkg) Inherit (LaunchFailed reason) ].

(** The traces of the loop over a list of tools: pass after pass, until
    the list is exhausted or a pass raises. *)
Inductive loop_trace : list (string * list string) → result unit → list event → Prop :=
  | loop_done :
      loop_trace [] (Ok ()) []
  | loop_next pkg probe l t r t' :
      tool_trace pkg (probe_command probe) (Ok ()) t →
      loop_trace l r t' →
      loop_trace ((pkg, probe) :: l) r (t ++ t')
  | loop_stop pkg probe l e t :
      tool_trace pkg (probe_command probe) (Raise e) t →
      loop_trace ((pkg, probe) :: l) (Raise e) t.

(** The traces of the dependency ensurer: the installer's self-upgrade,
    whose exit code is ignored, then the loop over [needed]. *)
Inductive ensurer_trace : result unit → list event → Prop :=
  | upgrade_unlaunched reason :
      ensurer_trace (Raise (OSError reason))
        [ Printed (echo (pip_install_cmd "pip"));
          Invoked (pip_install_cmd "pip") Inherit (LaunchFailed reason) ]
  | upgrade_then_loop rc r t :
      loop_trace needed r t →
      ensurer_trace r
        (Printed (echo (pip_install_cmd "pip")) ::
         Invoked (pip_install_cmd "pip") Inherit (Exited rc) :: t).

End Emitted.

(** ** Scripted hosts

    A host whose child processes answer from a fixed table and leave the
    machine as it is; a command missing from the table cannot be launched.
    Used to run the script on concrete inputs. *)

Fixpoint answer (tbl : list (list string * outcome)) (cmd : list string) : outcome :=
  match tbl with
  | [] => LaunchFailed "FileNotFoundError"
  | (c, o) :: tbl' => if decide (c = cmd) then o else answer tbl' cmd
  end.

Definition scripted (exe : string) (tbl : list (list string * outcome)) : Host :=
  {| world := unit;
     sys_executable := exe;
     spawn := λ m cmd _, (answer tbl cmd, m) |}.

Definition py : string := "/usr/bin/python3".

(** Everything is installed and the directory is already a repository. *)
Definition all_present : list (list string * outcome) :=
  [ ([py; "-m"; "pip"; "install"; "-U"; "pip"], Exited 0);
    (["pre-commit"; "--version"], Exited 0);
    ([py; "-c"; "import nbstripout"], Exited 0);
    (["nbautoexport"; "--help"], Exited 0);
    (["git"; "--version"], Exited 0);
    (["git"; "rev-parse"; "--is-inside-work-tree"], Exited 0);
    (["pre-commit"; "install"], Exited 0);
    (["nbautoexport"; "configure"; "-f"; "script"; "notebooks"], Exited 0) ].

(** As [all_present], but the directory is not a repository yet and
    [git init] fails with status 1. *)
Definition git_init_fails : list (list string * outcome) :=
  [ ([py; "-m"; "pip"; "install"; "-U"; "pip"], Exited 0);
    (["pre-commit"; "--version"], Exited 0);
    ([py; "-c"; "import nbstripout"], Exited 0);
    (["nbautoexport"; "--help"], Exited 0);
    (["git"; "--version"], Exited 0);
    (["git"; "rev-parse"; "--is-inside-work-tree"], Exited 128);
    (["git"; "init"], Exited 1) ].

(** The tools are installed but there is no git binary. *)
Definition no_git : list (list string * outcome) :=
  [ ([py; "-m"; "pip"; "install"; "-U"; "pip"], Exited 0);
    (["pre-commit"; "--version"], Exited 0);
    ([py; "-c"; "import nbstripout"], Exited 0);
    (["nbautoexport"; "--help"], Exited 0) ].

(** As [all_present], but the hook installer exits with 3 and the export
    configurator with 1. *)
Definition hooks_fail : list (list string * outcome) :=
  [ ([py; "-m"; "pip"; "install"; "-U"; "pip"], Exited 0);
    (["pre-commit"; "--version"], Exited 0);
    ([py; "-c"; "import nbstripout"], Exited 0);
    (["nbautoexport"; "--help"], Exited 0);
    (["git"; "--version"], Exited 0);
    (["git"; "rev-parse"; "--is-inside-work-tree"], Exited 0);
    (["pre-commit"; "install"], Exited 3);
    (["nbautoexport"; "configure"; "-f"; "script"; "notebooks"], Exited 1) ].

(** Nothing is installed and installing pre-commit fails with status 1. *)
Definition pip_fails : list (list string * outcome) :=
  [ ([py; "-m"; "pip"; "install"; "-U"; "pip"], Exited 0);
    ([py; "-m"; "pip"; "install"; "-U"; "pre-commit"], Exited 1) ].

Definition present : Host := scripted py all_present.
Definition broken_pip : Host := scripted py pip_fails.
Definition broken_init : Host := scripted py git_init_fails.
Definition gitless : Host := scripted py no_git.
Definition failing_hooks : Host := scripted py hooks_fail.

Definition empty_dir : machine unit := Machine ∅ ().

Definition configured_dir : machine unit :=
  Machine {[ cfg := File "repos: []" ]} ().

(** ** Vocabulary for whole runs *)

(** Every line on the console starts with the script's prefix. *)
Definition prefixed (l : list event) : Prop :=
  ∀ line, line ∈ console l → String.prefix ">>> " line = true.

(** The only change to the regular files between [F] and [F']: none, or
    the configuration file created with the literal text. *)
Definition config_created (F F' : gmap string node) : Prop :=
  F' = F ∨ (F !! cfg = None ∧ F' = <[cfg := File spec_payload]> F).

(** The traces of one half of the hook step: the tool is probed with
    [probe], then either run as [cmd] or skipped with the line [skip]. *)
Inductive hook_trace (probe cmd : list string) (skip : string) :
    result unit → list event → Prop :=
  | hook_ran rc :
      hook_trace probe cmd skip (Ok ())
        [ Invoked probe Devnull (Exited 0);
          Printed (echo cmd);
          Invoked cmd Inherit (Exited rc) ]
  | hook_unlaunched reason :
      hook_trace probe cmd skip (Raise (OSError reason))
        [ Invoked probe Devnull (Exited 0);
          Printed (echo cmd);
          Invoked cmd Inherit (LaunchFailed reason) ]
  | hook_skipped o :
      o ≠ Exited 0 →
      hook_trace probe cmd skip (Ok ()) [ Invoked probe Devnull o; Printed skip ].

(** The traces of [install_hooks_and_configure]: the pre-commit half, then
    the nbautoexport half unless the first one raised. *)
Inductive hooks_trace : result unit → list event → Prop :=
  | hooks_both t1 r t2 :
      hook_trace ["pre-commit"; "--version"] ["pre-commit"; "install"]
        ">>> pre-commit still not available, skipping install" (Ok ()) t1 →
      hook_trace ["nbautoexport"; "--help"]
        ["nbautoexport"; "configure"; "-f"; "script"; "notebooks"]
        ">>> nbautoexport still not available, skipping configure" r t2 →
      hooks_trace r (t1 ++ t2)
  | hooks_stopped e t1 :
      hook_trace ["pre-commit"; "--version"] ["pre-commit"; "install"]
        ">>> pre-commit still not available, skipping install" (Raise e) t1 →
      hooks_trace (Raise e) t1.

(** The exceptions that can end a run: a non-zero status passed on from a
    mandatory command, the message about git, or a launch failure. *)
Definition run_failure (e : exn) : Prop :=
  (∃ rc, rc ≠ 0 ∧ e = SystemExit (ExitInt rc)) ∨
  e = SystemExit (ExitStr "ERROR: git is not installed or not in PATH.") ∨
  (∃ reason, e = OSError reason).

Section Frames.
Context `{Host}.

(** A computation that only adds to the log and raises nothing but a
    [run_failure], and that directly after a launch. *)
Definition stops_at_launch {A} (c : M A) : Prop :=
  ∀ s, ∃ t, log (c s).2 = log s ++ t ∧
    match (c s).1 with
    | Ok _ => True
    | Raise e => run_failure e ∧ ∃ cmd io o, last t = Some (Invoked cmd io o)
    end.

Definition keeps_prefix {A} (c : M A) : Prop :=
  ∀ s, prefixed (log s) → prefixed (log (c s).2).

(** A host whose child processes leave the regular files of the working
    directory as they are. *)
Definition quiet : Prop :=
  ∀ m cmd io, files (spawn m cmd io).2 = files m.

Definition keeps_files {A} (c : M A) : Prop :=
  ∀ s, files (os (c s).2) = files (os s).

Definition creates_config_at_most {A} (c : M A) : Prop :=
  ∀ s, config_created (files (os s)) (files (os (c s).2)).

End Frames.

(** pre-commit cannot be found, and installing it changes nothing. *)
Definition install_no_effect : list (list string * outcome) :=
  [ ([py; "-m"; "pip"; "install"; "-U"; "pip"], Exited 0);
    ([py; "-m"; "pip"; "install"; "-U"; "pre-commit"], Exited 0);
    ([py; "-c"; "import nbstripout"], Exited 0);
    (["nbautoexport"; "--help"], Exited 0);
    (["git"; "--version"], Exited 0);
    (["git"; "rev-parse"; "--is-inside-work-tree"], Exited 0);
    (["nbautoexport"; "configure"; "-f"; "script"; "notebooks"], Exited 0) ].

(** As [all_present], but [pre-commit install] cannot be launched. *)
Definition hook_tool_vanishes : list (list string * outcome) :=
  [ ([py; "-m"; "pip"; "install"; "-U"; "pip"], Exited 0);
    (["pre-commit"; "--version"], Exited 0);
    ([py; "-c"; "import nbstripout"], Exited 0);
    (["nbautoexport"; "--help"], Exited 0);
    (["git"; "--version"], Exited 0);
    (["git"; "rev-parse"; "--is-inside-work-tree"], Exited 0);
    (["nbautoexport"; "configure"; "-f"; "script"; "notebooks"], Exited 0) ].

(** The installer's self-upgrade fails with status 2; the rest is present. *)
Definition upgrade_fails : list (list string * outcome) :=
  [ ([py; "-m"; "pip"; "install"; "-U"; "pip"], Exited 2);
    (["pre-commit"; "--version"], Exited 0);
    ([py; "-c"; "import nbstripout"], Exited 0);
    (["nbautoexport"; "--help"], Exited 0) ].

(** A host on which every command can be launched and exits with 0. *)
Definition obliging : Host :=
  {| world := unit;
     sys_executable := py;
     spawn := λ m _ _, (Exited 0, m) |}.

(** As [git_init_fails], but [git init] is killed by signal 15. *)
Definition git_init_killed : list (list string * outcome) :=
  [ ([py; "-m"; "pip"; "install"; "-U"; "pip"], Exited 0);
    (["pre-commit"; "--version"], Exited 0);
    ([py; "-c"; "import nbstripout"], Exited 0);
    (["nbautoexport"; "--help"], Exited 0);
    (["git"; "--version"], Exited 0);
    (["git"; "rev-parse"; "--is-inside-work-tree"], Exited 128);
    (["git"; "init"], Exited (-15)) ].

Definition killed_init : Host := scripted py git_init_killed.
Definition stubborn : Host := scripted py install_no_effect.
Definition vanishing : Host := scripted py hook_tool_vanishes.
Definition stale_pip : Host := scripted py upgrade_fails.

(** * Properties *)

Section Properties.
Context `{Host}.

(** ** Stepping lemmas *)

Lemma payload_literal : payload = spec_payload.
Proof. reflexivity. Qed.

Lemma emitted_eq {A} (c : M A) s t :
  log (c s).2 = log s ++ t → emitted c s = t.
Proof. unfold emitted. intros ->. apply drop_app_length. Qed.

Lemma print_eq args s :
  print args s = (Ok (), State (os s) (log s ++ [Printed (join " " args)])).
Proof. reflexivity. Qed.

Lemma run_eq cmd check s o m :
  spawn (os s) cmd Inherit = (o, m) →
  run cmd check s =
    (match o with
     | Exited rc =>
         if check && bool_decide (rc ≠ 0) then Raise (SystemExit (ExitInt rc))
         else Ok rc
     | LaunchFailed reason => Raise (OSError reason)
     end,
     State m (log s ++ [Printed (echo cmd); Invoked cmd Inherit o])).
Proof.
  intros Hsp. unfold run, bind, print, subprocess_run. cbn [os log].
  rewrite Hsp, <- app_assoc. cbn [app].
  destruct o as [rc|reason]; cbn; [|reflexivity].
  destruct (check && bool_decide (rc ≠ 0)); reflexivity.
Qed.

Lemma has_cmd_eq cmd s o m :
  spawn (os s) cmd Devnull = (o, m) →
  has_cmd cmd s = (Ok (passed o), State m (log s ++ [Invoked cmd Devnull o])).
Proof.
  intros Hsp. unfold has_cmd, try_except_Exception, bind, subprocess_run.
  rewrite Hsp. destruct o as [rc|reason]; cbn; [|reflexivity].
  destruct (bool_decide_reflect (rc ≠ 0)) as [Hne|Heq]; cbn.
  - rewrite bool_decide_eq_false_2; done.
  - rewrite bool_decide_eq_true_2; [done|]. by destruct (decide (rc = 0)).
Qed.

Lemma passed_true o : passed o = true ↔ o = Exited 0.
Proof.
  destruct o as [rc|reason]; cbn; [|done].
  rewrite bool_decide_eq_true. split; [by intros ->|congruence].
Qed.

Lemma passed_false o : passed o = false ↔ o ≠ Exited 0.
Proof. rewrite <- passed_true. by destruct (passed o). Qed.

(** ** The command runner *)

(** C7: [has_cmd] always returns a boolean, never raises and never ends
    the process; the boolean is [true] exactly when the command was
    launched and exited with 0, so it is [false] on every non-zero exit and
    on every launch failure.  The only trace it leaves is the launch
    itself. *)
Theorem has_cmd_never_raises (cmd : list string) (s : state) (o : outcome) (m : machine world) :
  spawn (os s) cmd Devnull = (o, m) →
  ∃ b : bool,
    has_cmd cmd s = (Ok b, State m (log s ++ [Invoked cmd Devnull o])) ∧
    (b = true ↔ o = Exited 0) ∧
    (∀ rc, rc ≠ 0 → o = Exited rc → b = false) ∧
    (∀ reason, o = LaunchFailed reason → b = false).
Proof.
  intros Hsp. exists (passed o). split; [by apply has_cmd_eq|].
  split; [apply passed_true|]. split.
  - intros rc Hrc ->. apply passed_false. congruence.
  - by intros reason ->.
Qed.

(** ** The configuration writer *)

(** C2: when [.pre-commit-config.yaml] exists, whatever it holds, the
    writer only prints its notice and returns: the machine, and so the
    file, is the same before and after. *)
Theorem write_precommit_config_keeps_existing (s : state) :
  is_Some (files (os s) !! cfg) →
  write_precommit_config s =
    (Ok (), State (os s) (log s ++ [Printed ">>> .pre-commit-config.yaml already exists"])) ∧
  os (write_precommit_config s).2 = os s ∧
  files (os (write_precommit_config s).2) !! cfg = files (os s) !! cfg.
Proof.
  intros Hex.
  assert (write_precommit_config s =
    (Ok (), State (os s) (log s ++ [Printed ">>> .pre-commit-config.yaml already exists"]))) as E.
  { unfold write_precommit_config, bind, path_exists.
    rewrite bool_decide_eq_true_2 by done. reflexivity. }
  rewrite E. done.
Qed.

(** C8: when [.pre-commit-config.yaml] is absent, the writer creates it as
    a regular file holding exactly the literal text of the specification,
    changes no other path, and reports the write. *)
Theorem write_precommit_config_creates (s : state) :
  files (os s) !! cfg = None →
  write_precommit_config s =
    (Ok (), State (Machine (<[cfg := File spec_payload]> (files (os s))) (ext (os s)))
                  (log s ++ [Printed ">>> wrote .pre-commit-config.yaml"])) ∧
  files (os (write_precommit_config s).2) !! cfg = Some (File spec_payload) ∧
  (∀ p, p ≠ cfg → files (os (write_precommit_config s).2) !! p = files (os s) !! p).
Proof.
  intros Hno.
  assert (write_precommit_config s =
    (Ok (), State (Machine (<[cfg := File spec_payload]> (files (os s))) (ext (os s)))
                  (log s ++ [Printed ">>> wrote .pre-commit-config.yaml"]))) as E.
  { unfold write_precommit_config, bind, path_exists.
    rewrite bool_decide_eq_false_2; [reflexivity|].
    rewrite Hno. by intros [? ?]. }
  rewrite E. cbn. split; [done|]. split.
  - apply lookup_insert_eq.
  - intros p Hp. by apply lookup_insert_ne.
Qed.

(** ** Sequencing *)

Lemma bind_eq {A B} (c : M A) (k : A → M B) s :
  bind c k s =
    match c s with
    | (Ok a, s') => k a s'
    | (Raise e, s') => (Raise e, s')
    end.
Proof. reflexivity. Qed.

Lemma bind_ok {A B} (c : M A) (k : A → M B) s a s' :
  c s = (Ok a, s') → bind c k s = k a s'.
Proof. intros E. by rewrite bind_eq, E. Qed.

Lemma bind_raise {A B} (c : M A) (k : A → M B) s e s' :
  c s = (Raise e, s') → bind c k s = (Raise e, s').
Proof. intros E. by rewrite bind_eq, E. Qed.

(** Run the next probe or command of the goal on a fresh outcome. *)
Ltac probe_step o m E :=
  match goal with
  | |- context [has_cmd ?c ?s] =>
      destruct (spawn (os s) c Devnull) as [o m] eqn:E;
      rewrite (has_cmd_eq c s o m E)
  end.

Ltac run_step o m E :=
  match goal with
  | |- context [run ?c ?b ?s] =>
      destruct (spawn (os s) c Inherit) as [o m] eqn:E;
      rewrite (run_eq c b s o m E)
  end.

Ltac tidy := cbv beta iota; cbn [os log]; rewrite <- ?app_assoc; cbn [app].

Ltac probe_with E := erewrite has_cmd_eq; [|cbn [os]; exact E].
Ltac run_with E := erewrite run_eq; [|cbn [os]; exact E].

(** ** The repository ensurer *)

Lemma ensure_git_repo_missing s o m :
  spawn (os s) ["git"; "--version"] Devnull = (o, m) →
  o ≠ Exited 0 →
  ensure_git_repo s =
    (Raise (SystemExit (ExitStr "ERROR: git is not installed or not in PATH.")),
     State m (log s ++ [Invoked ["git"; "--version"] Devnull o])).
Proof.
  intros E Ho. unfold ensure_git_repo.
  rewrite bind_eq. probe_with E.
  apply passed_false in Ho. rewrite Ho. reflexivity.
Qed.

Lemma ensure_git_repo_init s m1 o2 m2 o3 m3 :
  spawn (os s) ["git"; "--version"] Devnull = (Exited 0, m1) →
  spawn m1 ["git"; "rev-parse"; "--is-inside-work-tree"] Devnull = (o2, m2) →
  o2 ≠ Exited 0 →
  spawn m2 ["git"; "init"] Inherit = (o3, m3) →
  ensure_git_repo s =
    (match o3 with
     | Exited rc => if bool_decide (rc ≠ 0) then Raise (SystemExit (ExitInt rc)) else Ok ()
     | LaunchFailed reason => Raise (OSError reason)
     end,
     State m3 (log s ++ [Invoked ["git"; "--version"] Devnull (Exited 0);
                         Invoked ["git"; "rev-parse"; "--is-inside-work-tree"] Devnull o2;
                         Printed ">>> git init";
                         Invoked ["git"; "init"] Inherit o3])).
Proof.
  intros E1 E2 Ho2 E3. unfold ensure_git_repo.
  rewrite bind_eq. probe_with E1. cbn [passed negb].
  rewrite bool_decide_eq_true_2 by done. cbv iota. cbn [negb].
  rewrite bind_eq. probe_with E2.
  apply passed_false in Ho2. rewrite Ho2. cbv iota.
  rewrite bind_eq. run_with E3. tidy.
  destruct o3 as [rc|reason]; [|reflexivity].
  rewrite andb_true_l. by destruct (bool_decide (rc ≠ 0)).
Qed.

Lemma ensure_git_repo_inside s m1 m2 :
  spawn (os s) ["git"; "--version"] Devnull = (Exited 0, m1) →
  spawn m1 ["git"; "rev-parse"; "--is-inside-work-tree"] Devnull = (Exited 0, m2) →
  ensure_git_repo s =
    (Ok (),
     State m2 (log s ++ [Invoked ["git"; "--version"] Devnull (Exited 0);
                         Invoked ["git"; "rev-parse"; "--is-inside-work-tree"] Devnull (Exited 0);
                         Printed ">>> git already initialized"])).
Proof.
  intros E1 E2. unfold ensure_git_repo.
  rewrite bind_eq. probe_with E1. cbn [passed negb].
  rewrite bool_decide_eq_true_2 by done. cbv iota. cbn [negb].
  rewrite bind_eq. probe_with E2. cbn [passed].
  rewrite bool_decide_eq_true_2 by done. cbv iota.
  rewrite print_eq. tidy. reflexivity.
Qed.

Lemma posix_status_exit_code {A} (rc : Z) :
  0 < rc < 256 →
  exit_status (A:=A) (Raise (SystemExit (ExitInt rc))) = rc ∧
  posix_status (A:=A) (Raise (SystemExit (ExitInt rc))) = rc.
Proof.
  intros Hrc. split; [done|]. unfold posix_status. cbn [exit_status].
  apply Z.mod_small. lia.
Qed.

Lemma posix_status_signal {A} (rc : Z) :
  -256 < rc < 0 →
  posix_status (A:=A) (Raise (SystemExit (ExitInt rc))) = rc + 256.
Proof.
  intros Hrc. unfold posix_status. cbn [exit_status].
  rewrite <- (Z.mod_add rc 1 256) by lia. apply Z.mod_small. lia.
Qed.

(** C1: for every command whose child leaves a non-zero return code [rc]:
    [run] with [check] true raises [SystemExit(rc)] straight after the
    launch, and with [check] false it returns [rc] to its caller.  When
    [rc] is an exit code of the child (1..255), the process ends with
    exactly that exit status; when the child was killed by a signal
    ([rc] negative), the status is [rc + 256].  In particular, when
    [git init] is reached and exits with a non-zero code, the whole script
    ends there with that exit status. *)
Theorem run_exit_code_propagation :
  (∀ (cmd : list string) (s : state) (rc : Z) (m : machine world),
     spawn (os s) cmd Inherit = (Exited rc, m) → rc ≠ 0 →
     let s' := State m (log s ++ [Printed (echo cmd); Invoked cmd Inherit (Exited rc)]) in
     run cmd true s = (Raise (SystemExit (ExitInt rc)), s') ∧
     run cmd false s = (Ok rc, s') ∧
     (0 < rc < 256 →
      exit_status (run cmd true s).1 = rc ∧ posix_status (run cmd true s).1 = rc) ∧
     (-256 < rc < 0 → posix_status (run cmd true s).1 = rc + 256)) ∧
  (∀ (s s1 : state) (m1 m2 m3 : machine world) (o2 : outcome) (rc : Z),
     ensure_pip_packages s = (Ok (), s1) →
     spawn (os s1) ["git"; "--version"] Devnull = (Exited 0, m1) →
     spawn m1 ["git"; "rev-parse"; "--is-inside-work-tree"] Devnull = (o2, m2) →
     o2 ≠ Exited 0 →
     spawn m2 ["git"; "init"] Inherit = (Exited rc, m3) → rc ≠ 0 →
     main s =
       (Raise (SystemExit (ExitInt rc)),
        State m3 (log s1 ++ [Invoked ["git"; "--version"] Devnull (Exited 0);
                             Invoked ["git"; "rev-parse"; "--is-inside-work-tree"] Devnull o2;
                             Printed ">>> git init";
                             Invoked ["git"; "init"] Inherit (Exited rc)])) ∧
     (0 < rc < 256 →
      exit_status (main s).1 = rc ∧ posix_status (main s).1 = rc) ∧
     (-256 < rc < 0 → posix_status (main s).1 = rc + 256)).
Proof.
  split.
  - intros cmd s rc m E Hrc s'.
    rewrite !(run_eq _ _ _ _ _ E). cbn [fst andb].
    rewrite bool_decide_eq_true_2 by done.
    split; [done|]. split; [done|]. split.
    + apply posix_status_exit_code.
    + apply posix_status_signal.
  - intros s s1 m1 m2 m3 o2 rc Hpip E1 E2 Ho2 E3 Hrc.
    assert (main s =
      (Raise (SystemExit (ExitInt rc)),
       State m3 (log s1 ++ [Invoked ["git"; "--version"] Devnull (Exited 0);
                            Invoked ["git"; "rev-parse"; "--is-inside-work-tree"] Devnull o2;
                            Printed ">>> git init";
                            Invoked ["git"; "init"] Inherit (Exited rc)]))) as E.
    { unfold main. rewrite (bind_ok _ _ _ _ _ Hpip).
      erewrite bind_raise; [reflexivity|].
      rewrite (ensure_git_repo_init _ _ _ _ _ _ E1 E2 Ho2 E3).
      by rewrite bool_decide_eq_true_2. }
    rewrite E. cbn [fst]. split; [done|]. split.
    + apply posix_status_exit_code.
    + apply posix_status_signal.
Qed.

(** C3: when the [git --version] probe does not pass (git cannot be
    launched, or exits with a non-zero code), the script ends at once with
    [SystemExit] carrying the message about git, which is a string and not
    the integer status of a failed command; the exit status is 1, and the
    probe is the last thing the script did: nothing is printed, launched or
    written after it. *)
Theorem git_missing_aborts (s s1 : state) (o : outcome) (m : machine world) :
  ensure_pip_packages s = (Ok (), s1) →
  spawn (os s1) ["git"; "--version"] Devnull = (o, m) →
  o ≠ Exited 0 →
  main s =
    (Raise (SystemExit (ExitStr "ERROR: git is not installed or not in PATH.")),
     State m (log s1 ++ [Invoked ["git"; "--version"] Devnull o])) ∧
  fatal_message (main s).1 = Some "ERROR: git is not installed or not in PATH." ∧
  (∀ rc, (main s).1 ≠ Raise (SystemExit (ExitInt rc))) ∧
  exit_status (main s).1 = 1 ∧
  exit_status (main s).1 ≠ 0.
Proof.
  intros Hpip E Ho.
  assert (main s =
    (Raise (SystemExit (ExitStr "ERROR: git is not installed or not in PATH.")),
     State m (log s1 ++ [Invoked ["git"; "--version"] Devnull o]))) as Em.
  { unfold main. rewrite (bind_ok _ _ _ _ _ Hpip).
    erewrite bind_raise; [reflexivity|]. by apply ensure_git_repo_missing. }
  rewrite Em. done.
Qed.

(** ** The hook installer and export configurator *)

Lemma hooks_cases s :
  ∃ r s' t, install_hooks_and_configure s = (r, s') ∧ log s' = log s ++ t ∧
    (r = Ok () ∨
     ∃ cmd reason, r = Raise (OSError reason) ∧
                   last t = Some (Invoked cmd Inherit (LaunchFailed reason))).
Proof.
  assert (∀ s0 : state, ∃ r s' t,
    (nb <- has_cmd ["nbautoexport"; "--help"];;
     if nb then (run ["nbautoexport"; "configure"; "-f"; "script"; "notebooks"] false;; ret ())
     else print [">>> nbautoexport still not available, skipping configure"]) s0 = (r, s') ∧
    log s' = log s0 ++ t ∧
    (r = Ok () ∨
     ∃ cmd reason, r = Raise (OSError reason) ∧
                   last t = Some (Invoked cmd Inherit (LaunchFailed reason)))) as Hnb.
  { intros s0. rewrite bind_eq. probe_step o3 m3 E3. cbv iota.
    destruct (passed o3).
    - rewrite bind_eq. run_step o4 m4 E4. tidy.
      destruct o4 as [rc4|reason4]; eexists _, _, _; (split; [reflexivity|]);
        cbn [log]; (split; [reflexivity|]); [by left|right; by eexists _, _].
    - rewrite print_eq. tidy. eexists _, _, _. split; [reflexivity|].
      cbn [log]. split; [reflexivity|]. by left. }
  unfold install_hooks_and_configure.
  rewrite bind_eq. probe_step o1 m1 E1. cbv iota.
  destruct (passed o1).
  - rewrite bind_eq, bind_eq. run_step o2 m2 E2. tidy.
    destruct o2 as [rc2|reason2].
    + cbn [andb]. cbv iota beta. unfold ret at 1. cbv iota beta.
      match goal with |- context [bind ?c ?k ?s0] => destruct (Hnb s0) as (r & s' & t & -> & Hl & Hr) end.
      exists r, s', (Invoked ["pre-commit"; "--version"] Devnull o1 ::
                     Printed (echo ["pre-commit"; "install"]) ::
                     Invoked ["pre-commit"; "install"] Inherit (Exited rc2) :: t).
      split; [reflexivity|]. rewrite Hl. cbn [log]. rewrite <- ?app_assoc. cbn [app].
      split; [reflexivity|]. destruct Hr as [->|(c & re & -> & Hlast)]; [by left|].
      right. exists c, re. split; [done|].
      destruct t; [done|]. exact Hlast.
    + eexists _, _, _. split; [reflexivity|]. cbn [log]. split; [reflexivity|].
      right. by eexists _, _.
  - rewrite bind_eq, print_eq. tidy.
    match goal with |- context [bind ?c ?k ?s0] => destruct (Hnb s0) as (r & s' & t & -> & Hl & Hr) end.
    exists r, s', (Invoked ["pre-commit"; "--version"] Devnull o1 ::
                   Printed ">>> pre-commit still not available, skipping install" :: t).
    split; [reflexivity|]. rewrite Hl. cbn [log]. rewrite <- ?app_assoc. cbn [app].
    split; [reflexivity|]. destruct Hr as [->|(c & re & -> & Hlast)]; [by left|].
    right. exists c, re. split; [done|].
    destruct t; [done|]. exact Hlast.
Qed.

(** C4: the hook installer and the export configurator are run with
    [check] false, so whatever codes [rc1] and [rc2] they exit with, the
    step returns normally; and once the earlier steps have passed, the
    script reaches its closing line and exits with status 0 unless one of
    the two commands cannot be launched at all. *)
Theorem hooks_exit_codes_never_abort :
  (∀ (s : state) (m1 m2 m3 m4 : machine world) (rc1 rc2 : Z),
     spawn (os s) ["pre-commit"; "--version"] Devnull = (Exited 0, m1) →
     spawn m1 ["pre-commit"; "install"] Inherit = (Exited rc1, m2) →
     spawn m2 ["nbautoexport"; "--help"] Devnull = (Exited 0, m3) →
     spawn m3 ["nbautoexport"; "configure"; "-f"; "script"; "notebooks"] Inherit
       = (Exited rc2, m4) →
     install_hooks_and_configure s =
       (Ok (),
        State m4 (log s ++ [Invoked ["pre-commit"; "--version"] Devnull (Exited 0);
                            Printed ">>> pre-commit install";
                            Invoked ["pre-commit"; "install"] Inherit (Exited rc1);
                            Invoked ["nbautoexport"; "--help"] Devnull (Exited 0);
                            Printed ">>> nbautoexport configure -f script notebooks";
                            Invoked ["nbautoexport"; "configure"; "-f"; "script"; "notebooks"]
                              Inherit (Exited rc2)]))) ∧
  (∀ (s s1 s2 s3 : state),
     ensure_pip_packages s = (Ok (), s1) →
     ensure_git_repo s1 = (Ok (), s2) →
     write_precommit_config s2 = (Ok (), s3) →
     (∀ cmd reason,
        Invoked cmd Inherit (LaunchFailed reason) ∉ emitted install_hooks_and_configure s3) →
     ∃ s4, install_hooks_and_configure s3 = (Ok (), s4) ∧
           main s = (Ok (), State (os s4) (log s4 ++ [Printed ">>> git_tools done"])) ∧
           last (log (main s).2) = Some (Printed ">>> git_tools done") ∧
           exit_status (main s).1 = 0).
Proof.
  split.
  - intros s m1 m2 m3 m4 rc1 rc2 E1 E2 E3 E4.
    unfold install_hooks_and_configure.
    rewrite bind_eq. probe_with E1. cbn [passed].
    rewrite bool_decide_eq_true_2 by done. cbv iota.
    rewrite bind_eq, bind_eq. run_with E2. tidy. cbn [andb]. cbv iota beta.
    unfold ret at 1. cbv iota beta.
    rewrite bind_eq. probe_with E3. cbn [passed].
    rewrite bool_decide_eq_true_2 by done. cbv iota.
    rewrite bind_eq. run_with E4. tidy. reflexivity.
  - intros s s1 s2 s3 Hpip Hgit Hcfg Hlaunch.
    destruct (hooks_cases s3) as (r & s4 & t & E & Hl & [->|(c & re & -> & Hlast)]).
    + exists s4. split; [done|].
      assert (main s = (Ok (), State (os s4) (log s4 ++ [Printed ">>> git_tools done"]))) as Em.
      { unfold main.
        rewrite (bind_ok _ _ _ _ _ Hpip), (bind_ok _ _ _ _ _ Hgit),
          (bind_ok _ _ _ _ _ Hcfg), (bind_ok _ _ _ _ _ E).
        apply print_eq. }
      rewrite Em. cbn [fst snd log exit_status]. by rewrite last_snoc.
    + exfalso. apply (Hlaunch c re).
      rewrite (emitted_eq _ _ t) by (by rewrite E).
      by apply last_Some_elem_of.
Qed.

(** ** The dependency ensurer *)

Lemma probe_ok_eq probe s :
  indexable probe → probe_ok probe s = has_cmd (probe_command probe) s.
Proof.
  destruct probe as [|p0 rest]; [done|]. cbn [indexable]. intros Hix.
  unfold probe_ok, probe_command. rewrite bind_eq. cbn [getitem lookup list_lookup ret].
  cbv iota beta.
  destruct (bool_decide_reflect (p0 ≠ "python")) as [Hne|Heq]; [reflexivity|].
  assert (p0 = "python") as Hp by (by destruct (decide (p0 = "python"))).
  specialize (Hix Hp).
  destruct rest as [|p1 [|p2 rest]]; cbn in Hix; [lia|lia|].
  reflexivity.
Qed.

Lemma ensure_one_trace pkg probe s :
  indexable probe →
  ∃ t, log (ensure_one (pkg, probe) s).2 = log s ++ t ∧
       tool_trace pkg (probe_command probe) (ensure_one (pkg, probe) s).1 t.
Proof.
  intros Hix. unfold ensure_one. rewrite bind_eq, (probe_ok_eq _ _ Hix).
  probe_step o m E. cbv iota.
  destruct (passed o) eqn:Hp.
  - apply passed_true in Hp as ->. rewrite print_eq. tidy.
    eexists. split; [reflexivity|]. constructor.
  - apply passed_false in Hp. rewrite bind_eq, print_eq. cbv iota.
    unfold pip_install. rewrite bind_eq. run_step o' m' E'. tidy.
    destruct o' as [rc|reason].
    + rewrite andb_true_l. destruct (bool_decide_reflect (rc ≠ 0)) as [Hrc|Hrc].
      * eexists. split; [reflexivity|]. by constructor.
      * assert (rc = 0) as -> by (by destruct (decide (rc = 0))).
        eexists. split; [reflexivity|]. by constructor.
    + eexists. split; [reflexivity|]. by constructor.
Qed.

Lemma for_each_trace l :
  Forall (λ e, indexable e.2) l →
  ∀ s, ∃ t, log (for_each l ensure_one s).2 = log s ++ t ∧
            loop_trace l (for_each l ensure_one s).1 t.
Proof.
  induction 1 as [|[pkg probe] l Hix _ IH]; intros s.
  - exists []. split; [by rewrite app_nil_r|]. constructor.
  - cbn [for_each]. rewrite bind_eq.
    destruct (ensure_one_trace pkg probe s Hix) as (t & Hl & Ht).
    destruct (ensure_one (pkg, probe) s) as [[[]|e] s1]; cbn [fst snd] in *.
    + destruct (IH s1) as (t' & Hl' & Ht').
      exists (t ++ t'). split; [by rewrite Hl', Hl, app_assoc|].
      by econstructor.
    + exists t. split; [done|]. by constructor.
Qed.

Lemma needed_indexable : Forall (λ e, indexable e.2) needed.
Proof. repeat constructor; cbn; intros; (done || lia). Qed.

Lemma ensure_pip_packages_trace s :
  log (ensure_pip_packages s).2 = log s ++ emitted ensure_pip_packages s ∧
  ensurer_trace (ensure_pip_packages s).1 (emitted ensure_pip_packages s).
Proof.
  assert (∃ t, log (ensure_pip_packages s).2 = log s ++ t ∧
               ensurer_trace (ensure_pip_packages s).1 t) as (t & Hl & Ht).
  { unfold ensure_pip_packages. rewrite bind_eq. run_step o m E. tidy.
    destruct o as [rc|reason].
    - cbn [andb]. cbv iota.
      match goal with |- context [for_each needed ensure_one ?s0] =>
        destruct (for_each_trace needed needed_indexable s0) as (t & Hl & Ht) end.
      eexists. split; [|constructor; exact Ht].
      rewrite Hl. cbn [log]. by rewrite <- app_assoc.
    - eexists. split; [reflexivity|]. constructor. }
  by rewrite (emitted_eq _ _ _ Hl).
Qed.

Lemma probe_commands_needed :
  probe_command <$> needed.*2 =
    [ ["pre-commit"; "--version"];
      [sys_executable; "-c"; "import nbstripout"];
      ["nbautoexport"; "--help"] ].
Proof. reflexivity. Qed.

Lemma tool_trace_probes pkg cmd r t :
  tool_trace pkg cmd r t → launched Devnull t = [cmd].
Proof. by destruct 1. Qed.

Lemma launched_app io t t' : launched io (t ++ t') = launched io t ++ launched io t'.
Proof. apply omap_app. Qed.

Lemma loop_trace_probes l r t :
  loop_trace l r t →
  launched Devnull t `prefix_of` (probe_command <$> l.*2) ∧
  (r = Ok () → launched Devnull t = probe_command <$> l.*2).
Proof.
  induction 1 as [|pkg probe l t r t' Ht _ [IHp IHe]|pkg probe l e t Ht].
  - split; [by exists []|done].
  - rewrite launched_app, (tool_trace_probes _ _ _ _ Ht). cbn. split.
    + by apply prefix_cons.
    + intros Hr. by rewrite (IHe Hr).
  - rewrite (tool_trace_probes _ _ _ _ Ht). cbn. split; [|done].
    apply prefix_cons, prefix_nil.
Qed.

Lemma ensurer_trace_probes r t :
  ensurer_trace r t →
  launched Devnull t `prefix_of` (probe_command <$> needed.*2) ∧
  (r = Ok () → launched Devnull t = probe_command <$> needed.*2).
Proof.
  destruct 1 as [reason|rc r t Ht].
  - split; [apply prefix_nil|done].
  - apply (loop_trace_probes _ _ _ Ht).
Qed.

(** Take a trace of the ensurer apart into its finitely many shapes. *)
Ltac trace_cases :=
  repeat match goal with
    | H : ensurer_trace _ _ |- _ => inversion H; subst; clear H
    | H : loop_trace needed _ _ |- _ => unfold needed in H
    | H : loop_trace (_ :: _) _ _ |- _ => inversion H; subst; clear H
    | H : loop_trace [] _ _ |- _ => inversion H; subst; clear H
    | H : tool_trace _ _ _ _ |- _ => inversion H; subst; clear H
    end.

Lemma probe_command_version : probe_command ["pre-commit"; "--version"] = ["pre-commit"; "--version"].
Proof. reflexivity. Qed.

Lemma probe_command_import :
  probe_command ["python"; "-c"; "import nbstripout"] = [sys_executable; "-c"; "import nbstripout"].
Proof. reflexivity. Qed.

Lemma probe_command_help : probe_command ["nbautoexport"; "--help"] = ["nbautoexport"; "--help"].
Proof. reflexivity. Qed.

Ltac probe_commands :=
  rewrite ?probe_command_version, ?probe_command_import, ?probe_command_help in *.

(** Refute an equation between two different events. *)
Ltac absurd_event E :=
  first [ discriminate E | injection E; intros; subst; congruence ].

(** Go through a membership in a concrete trace, dropping the events that
    cannot be the one looked for. *)
Ltac scan_trace Hin :=
  repeat (destruct Hin as [Hin|Hin]; [try absurd_event Hin|]);
  try contradiction.

Lemma ensurer_trace_skip r t pkg probe :
  ensurer_trace r t →
  (pkg, probe) ∈ needed →
  Invoked (probe_command probe) Devnull (Exited 0) ∈ t →
  ∀ io o, Invoked (pip_install_cmd pkg) io o ∉ t.
Proof.
  intros Ht Hin Hp io o Hi.
  apply list_elem_of_In in Hin, Hp, Hi.
  cbn in Hin. destruct Hin as [[= <- <-]|[[= <- <-]|[[= <- <-]|[]]]];
    trace_cases; probe_commands; unfold pip_install_cmd in *;
    cbn in Hp, Hi; scan_trace Hp; scan_trace Hi.
Qed.

(** ** The repository ensurer, by cases *)

Lemma ensure_git_repo_cases s :
  (∃ o, o ≠ Exited 0 ∧
        emitted ensure_git_repo s = [Invoked ["git"; "--version"] Devnull o]) ∨
  emitted ensure_git_repo s =
    [ Invoked ["git"; "--version"] Devnull (Exited 0);
      Invoked ["git"; "rev-parse"; "--is-inside-work-tree"] Devnull (Exited 0);
      Printed ">>> git already initialized" ] ∨
  (∃ o2 o3, o2 ≠ Exited 0 ∧
        emitted ensure_git_repo s =
          [ Invoked ["git"; "--version"] Devnull (Exited 0);
            Invoked ["git"; "rev-parse"; "--is-inside-work-tree"] Devnull o2;
            Printed ">>> git init";
            Invoked ["git"; "init"] Inherit o3 ]).
Proof.
  destruct (spawn (os s) ["git"; "--version"] Devnull) as [o1 m1] eqn:E1.
  destruct (decide (o1 = Exited 0)) as [->|Ho1].
  - destruct (spawn m1 ["git"; "rev-parse"; "--is-inside-work-tree"] Devnull)
      as [o2 m2] eqn:E2.
    destruct (decide (o2 = Exited 0)) as [->|Ho2].
    + right; left. apply emitted_eq.
      by rewrite (ensure_git_repo_inside _ _ _ E1 E2).
    + right; right. destruct (spawn m2 ["git"; "init"] Inherit) as [o3 m3] eqn:E3.
      exists o2, o3. split; [done|]. apply emitted_eq.
      by rewrite (ensure_git_repo_init _ _ _ _ _ _ E1 E2 Ho2 E3).
  - left. exists o1. split; [done|]. apply emitted_eq.
    by rewrite (ensure_git_repo_missing _ _ _ E1 Ho1).
Qed.

(** C5: within the dependency ensurer, a tool whose probe passed is never
    handed to the package installer: its [pip install] command is not
    launched, with any stream setting and any outcome; and within the
    repository ensurer, when the working-tree probe passed, [git init] is
    never launched. *)
Theorem passed_probe_skips_action :
  (∀ (s : state) (pkg : string) (probe : list string),
     (pkg, probe) ∈ needed →
     Invoked (probe_command probe) Devnull (Exited 0) ∈ emitted ensure_pip_packages s →
     ∀ io o, Invoked (pip_install_cmd pkg) io o ∉ emitted ensure_pip_packages s) ∧
  (∀ (s : state),
     Invoked ["git"; "rev-parse"; "--is-inside-work-tree"] Devnull (Exited 0)
       ∈ emitted ensure_git_repo s →
     ∀ io o, Invoked ["git"; "init"] io o ∉ emitted ensure_git_repo s).
Proof.
  split.
  - intros s pkg probe Hin Hp.
    destruct (ensure_pip_packages_trace s) as [_ Ht].
    exact (ensurer_trace_skip _ _ pkg probe Ht Hin Hp).
  - intros s Hp io o Hi.
    destruct (ensure_git_repo_cases s) as [(o1 & Ho1 & E)|[E|(o2 & o3 & Ho2 & E)]];
      rewrite E in Hp, Hi; apply list_elem_of_In in Hp, Hi; cbn in Hp, Hi;
      intuition congruence.
Qed.

(** C6, as amended: the ensurer's list names three tools, pre-commit,
    nbstripout and nbautoexport, in this order; their probes are a
    [--version] invocation for pre-commit, an import check run by the
    interpreter for nbstripout and a [--help] invocation (not a version
    flag) for nbautoexport; on every run the probes launched are these
    three in this order when the ensurer returns, and an initial part of
    them when a failed installation ends it early. *)
Theorem ensure_pip_packages_probe_order :
  needed.*1 = ["pre-commit"; "nbstripout"; "nbautoexport"] ∧
  probe_command <$> needed.*2 =
    [ ["pre-commit"; "--version"];
      [sys_executable; "-c"; "import nbstripout"];
      ["nbautoexport"; "--help"] ] ∧
  is_version_probe ["pre-commit"; "--version"] = true ∧
  is_import_probe [sys_executable; "-c"; "import nbstripout"] = true ∧
  is_help_probe ["nbautoexport"; "--help"] = true ∧
  is_version_probe ["nbautoexport"; "--help"] = false ∧
  (∀ s : state,
     launched Devnull (emitted ensure_pip_packages s) `prefix_of`
       [ ["pre-commit"; "--version"];
         [sys_executable; "-c"; "import nbstripout"];
         ["nbautoexport"; "--help"] ] ∧
     ((ensure_pip_packages s).1 = Ok () →
      launched Devnull (emitted ensure_pip_packages s) =
        [ ["pre-commit"; "--version"];
          [sys_executable; "-c"; "import nbstripout"];
          ["nbautoexport"; "--help"] ])).
Proof.
  repeat split; try reflexivity.
  - rewrite <- probe_commands_needed.
    apply (ensurer_trace_probes _ _ (proj2 (ensure_pip_packages_trace s))).
  - rewrite <- probe_commands_needed.
    apply (ensurer_trace_probes _ _ (proj2 (ensure_pip_packages_trace s))).
Qed.

(** C10: a probe of the list that starts with ["python"] is not launched
    as written: [has_cmd] receives the interpreter's own path
    ([sys.executable]) in place of ["python"], followed by [-c] and the
    probe's code.  So the nbstripout check runs as
    [sys.executable -c "import nbstripout"], and unless the interpreter's
    path is itself the bare word ["python"], no command the ensurer
    launches starts with ["python"]. *)
Theorem import_probe_uses_sys_executable :
  (∀ (pkg : string) (probe rest : list string),
     (pkg, probe) ∈ needed → probe = "python" :: rest →
     ∀ s, probe_ok probe s = has_cmd (sys_executable :: rest) s) ∧
  (∀ (code : string) (s : state),
     probe_ok ["python"; "-c"; code] s = has_cmd [sys_executable; "-c"; code] s) ∧
  (∀ s : state,
     (ensure_pip_packages s).1 = Ok () →
     launched Devnull (emitted ensure_pip_packages s) =
       [ ["pre-commit"; "--version"];
         [sys_executable; "-c"; "import nbstripout"];
         ["nbautoexport"; "--help"] ]) ∧
  (sys_executable ≠ "python" →
   ∀ (s : state) (cmd : list string) (io : stdio) (o : outcome),
     Invoked cmd io o ∈ emitted ensure_pip_packages s → head cmd ≠ Some "python").
Proof.
  assert (∀ code s,
    probe_ok ["python"; "-c"; code] s = has_cmd [sys_executable; "-c"; code] s) as Hcode.
  { intros code s. rewrite probe_ok_eq; [reflexivity|]. cbn. lia. }
  split; [|split; [|split]].
  - intros pkg probe rest Hin -> s.
    apply list_elem_of_In in Hin. cbn in Hin.
    destruct Hin as [[=]|[[= <- <-]|[[=]|[]]]]. apply Hcode.
  - exact Hcode.
  - intros s Hok. rewrite <- probe_commands_needed.
    by apply (ensurer_trace_probes _ _ (proj2 (ensure_pip_packages_trace s))).
  - intros Hexe s cmd io o Hi.
    destruct (ensure_pip_packages_trace s) as [_ Ht].
    revert Ht Hi. generalize (emitted ensure_pip_packages s) (ensure_pip_packages s).1.
    intros t r Ht Hi. apply list_elem_of_In in Hi.
    trace_cases; probe_commands; unfold pip_install_cmd in *; cbn in Hi;
      repeat (destruct Hi as [Hi|Hi];
              [try discriminate Hi; injection Hi as <- <- <-; cbn; congruence|]);
      destruct Hi.
Qed.

(** ** Console echo *)

Lemma echoed_nil sel : echoed sel [].
Proof. intros i cmd io o Hi. by rewrite lookup_nil in Hi. Qed.

Lemma echoed_snoc_printed sel l line :
  echoed sel l → echoed sel (l ++ [Printed line]).
Proof.
  intros Hl i cmd io o Hi Hsel.
  apply lookup_snoc_Some in Hi as [[Hlt Hi]|[_ [=]]].
  destruct (Hl i cmd io o Hi Hsel) as (j & -> & Hj).
  exists j. split; [done|]. rewrite lookup_app_l; [done|lia].
Qed.

Lemma echoed_snoc_unselected sel l cmd io o :
  sel io = false → echoed sel l → echoed sel (l ++ [Invoked cmd io o]).
Proof.
  intros Hio Hl i cmd' io' o' Hi Hsel.
  apply lookup_snoc_Some in Hi as [[Hlt Hi]|[_ [= <- <- <-]]]; [|congruence].
  destruct (Hl i cmd' io' o' Hi Hsel) as (j & -> & Hj).
  exists j. split; [done|]. rewrite lookup_app_l; [done|lia].
Qed.

Lemma echoed_snoc_announced sel l cmd io o :
  echoed sel l → echoed sel (l ++ [Printed (echo cmd); Invoked cmd io o]).
Proof.
  intros Hl. change [Printed (echo cmd); Invoked cmd io o]
    with ([Printed (echo cmd)] ++ [Invoked cmd io o]).
  rewrite app_assoc. intros i cmd' io' o' Hi Hsel.
  apply lookup_snoc_Some in Hi as [[Hlt Hi]|[Hlen [= <- <- <-]]].
  - destruct (echoed_snoc_printed sel l (echo cmd) Hl i cmd' io' o' Hi Hsel)
      as (j & -> & Hj).
    exists j. split; [done|]. rewrite lookup_app_l; [done|lia].
  - rewrite length_app in Hlen. cbn in Hlen. exists (length l).
    split; [lia|]. rewrite lookup_app_l by (rewrite length_app; cbn; lia).
    by rewrite list_lookup_middle.
Qed.

Lemma keeps_ret {A} (a : A) : keeps_echo (ret a).
Proof. by intros s. Qed.

Lemma keeps_raise {A} e : keeps_echo (raise (A:=A) e).
Proof. by intros s. Qed.

Lemma keeps_bind {A B} (c : M A) (k : A → M B) :
  keeps_echo c → (∀ a, keeps_echo (k a)) → keeps_echo (bind c k).
Proof.
  intros Hc Hk s Hs. rewrite bind_eq. specialize (Hc s Hs).
  destruct (c s) as [[a|e] s1]; cbn in Hc; [by apply Hk|done].
Qed.

Lemma keeps_print args : keeps_echo (print args).
Proof. intros s Hs. by apply echoed_snoc_printed. Qed.

Lemma keeps_has_cmd cmd : keeps_echo (has_cmd cmd).
Proof.
  intros s Hs. destruct (spawn (os s) cmd Devnull) as [o m] eqn:E.
  rewrite (has_cmd_eq _ _ _ _ E). by apply echoed_snoc_unselected.
Qed.

Lemma keeps_run cmd check : keeps_echo (run cmd check).
Proof.
  intros s Hs. destruct (spawn (os s) cmd Inherit) as [o m] eqn:E.
  rewrite (run_eq _ _ _ _ _ E). by apply echoed_snoc_announced.
Qed.

Lemma keeps_getitem l i : keeps_echo (getitem l i).
Proof. unfold getitem. destruct (l !! i); [apply keeps_ret|apply keeps_raise]. Qed.

Lemma keeps_for_each {A} (l : list A) body :
  (∀ x, keeps_echo (body x)) → keeps_echo (for_each l body).
Proof.
  intros Hb. induction l as [|x l IH]; [apply keeps_ret|].
  cbn [for_each]. by apply keeps_bind.
Qed.

Ltac keeps :=
  repeat first
    [ apply keeps_has_cmd | apply keeps_run | apply keeps_getitem
    | apply keeps_ret | apply keeps_raise | apply keeps_print
    | apply keeps_bind; [|intros ?; cbv beta]
    | match goal with |- keeps_echo (if ?b then _ else _) => destruct b end ].

Lemma keeps_ensure_one e : keeps_echo (ensure_one e).
Proof. destruct e as [pkg probe]. unfold ensure_one, probe_ok, pip_install. keeps. Qed.

Lemma keeps_ensure_pip_packages : keeps_echo ensure_pip_packages.
Proof.
  unfold ensure_pip_packages. apply keeps_bind; [apply keeps_run|].
  intros _. apply keeps_for_each, keeps_ensure_one.
Qed.

Lemma keeps_ensure_git_repo : keeps_echo ensure_git_repo.
Proof. unfold ensure_git_repo. keeps. Qed.

Lemma keeps_write_precommit_config : keeps_echo write_precommit_config.
Proof.
  unfold write_precommit_config. apply keeps_bind; [by intros s|].
  intros []; keeps.
Qed.

Lemma keeps_install_hooks_and_configure : keeps_echo install_hooks_and_configure.
Proof. unfold install_hooks_and_configure. keeps. Qed.

Lemma keeps_main : keeps_echo main.
Proof.
  unfold main.
  apply keeps_bind; [apply keeps_ensure_pip_packages|intros _].
  apply keeps_bind; [apply keeps_ensure_git_repo|intros _].
  apply keeps_bind; [apply keeps_write_precommit_config|intros _].
  apply keeps_bind; [apply keeps_install_hooks_and_configure|intros _].
  apply keeps_print.
Qed.

(** C9, as amended: in every run of the script, each command launched
    through [run] comes directly after the console line that announces it,
    the prefix [>>> ] followed by the command line.  The availability
    probes of [has_cmd] are launched silently: a probe adds the launch to
    the log and no console line. *)
Theorem run_commands_echoed :
  (∀ m : machine world, echoed only_inherit (log (main (initial m)).2)) ∧
  (∀ (cmd : list string) (check : bool) (s : state),
     ∃ o, emitted (run cmd check) s =
            [Printed (">>> " +:+ join " " cmd); Invoked cmd Inherit o]) ∧
  (∀ (cmd : list string) (s : state),
     ∃ o, emitted (has_cmd cmd) s = [Invoked cmd Devnull o] ∧
          console (emitted (has_cmd cmd) s) = []).
Proof.
  split; [|split].
  - intros m. apply keeps_main, echoed_nil.
  - intros cmd check s. destruct (spawn (os s) cmd Inherit) as [o m] eqn:E.
    exists o. apply emitted_eq. by rewrite (run_eq _ _ _ _ _ E).
  - intros cmd s. destruct (spawn (os s) cmd Devnull) as [o m] eqn:E.
    exists o. rewrite (emitted_eq _ _ [Invoked cmd Devnull o]); [done|].
    by rewrite (has_cmd_eq _ _ _ _ E).
Qed.

(** ** Further properties of the dependency ensurer *)

Lemma last_app_nonempty {A} (l t : list A) x :
  last t = Some x → last (l ++ t) = Some x.
Proof.
  intros Ht. destruct t as [|y t]; [done|].
  rewrite last_app. cbn [last] in *. by rewrite Ht.
Qed.

Lemma ensurer_trace_ends r t :
  ensurer_trace r t →
  r = Ok () ∨
  (∃ pkg rc, pkg ∈ needed.*1 ∧ rc ≠ 0 ∧
     r = Raise (SystemExit (ExitInt rc)) ∧
     last t = Some (Invoked (pip_install_cmd pkg) Inherit (Exited rc))) ∨
  (∃ cmd reason,
     r = Raise (OSError reason) ∧
     last t = Some (Invoked cmd Inherit (LaunchFailed reason))).
Proof.
  intros Ht.
  assert (∀ pkg, In pkg ["pre-commit"; "nbstripout"; "nbautoexport"] → pkg ∈ needed.*1)
    as Hin by (intros pkg Hp; by apply list_elem_of_In).
  trace_cases; cbn [app];
    first
      [ by left
      | right; left; eexists _, _; (split; [|split; [|split]]); revgoals;
        [reflexivity|reflexivity|eassumption|apply Hin; cbn; tauto]
      | right; right; eexists _, _; split; reflexivity ].
Qed.

(** X1: the dependency ensurer ends in one of three ways: it returns; or a
    [pip install] of one of the listed tools exited with a non-zero code,
    which it raises as [SystemExit] right after that launch; or a command
    it runs could not be launched, which surfaces as [OSError].  It never
    raises [IndexError], [CalledProcessError] or a message. *)
Theorem ensure_pip_packages_outcomes (s : state) :
  (ensure_pip_packages s).1 = Ok () ∨
  (∃ pkg rc, pkg ∈ needed.*1 ∧ rc ≠ 0 ∧
     (ensure_pip_packages s).1 = Raise (SystemExit (ExitInt rc)) ∧
     last (emitted ensure_pip_packages s)
       = Some (Invoked (pip_install_cmd pkg) Inherit (Exited rc))) ∨
  (∃ cmd reason,
     (ensure_pip_packages s).1 = Raise (OSError reason) ∧
     last (emitted ensure_pip_packages s)
       = Some (Invoked cmd Inherit (LaunchFailed reason))).
Proof.
  destruct (ensure_pip_packages_trace s) as [_ Ht].
  exact (ensurer_trace_ends _ _ Ht).
Qed.

Lemma ensurer_trace_failed_install r t pkg rc :
  ensurer_trace r t →
  pkg ∈ needed.*1 → rc ≠ 0 →
  Invoked (pip_install_cmd pkg) Inherit (Exited rc) ∈ t →
  r = Raise (SystemExit (ExitInt rc)) ∧
  last t = Some (Invoked (pip_install_cmd pkg) Inherit (Exited rc)).
Proof.
  intros Ht Hin Hrc Hi.
  apply list_elem_of_In in Hin, Hi.
  cbn in Hin. destruct Hin as [<-|[<-|[<-|[]]]];
    trace_cases; probe_commands; unfold pip_install_cmd in *;
    cbn in Hi; scan_trace Hi;
    injection Hi as <-; by split.
Qed.

(** X2: installing a listed tool is mandatory: when a [pip install] of
    one of them leaves a non-zero return code [rc], that launch is the
    last thing the ensurer does and the whole script ends there with
    [SystemExit(rc)].  When [rc] is an exit code of the installer
    (1..255) the script's exit status is exactly [rc]; when the installer
    was killed by a signal ([rc] negative) the status is [rc + 256]. *)
Theorem failed_install_ends_run (s : state) (pkg : string) (rc : Z) :
  pkg ∈ needed.*1 → rc ≠ 0 →
  Invoked (pip_install_cmd pkg) Inherit (Exited rc) ∈ emitted ensure_pip_packages s →
  main s = (Raise (SystemExit (ExitInt rc)), (ensure_pip_packages s).2) ∧
  (0 < rc < 256 → exit_status (main s).1 = rc ∧ posix_status (main s).1 = rc) ∧
  (-256 < rc < 0 → posix_status (main s).1 = rc + 256) ∧
  last (emitted ensure_pip_packages s)
    = Some (Invoked (pip_install_cmd pkg) Inherit (Exited rc)).
Proof.
  intros Hin Hrc Hi.
  destruct (ensure_pip_packages_trace s) as [_ Ht].
  destruct (ensurer_trace_failed_install _ _ _ _ Ht Hin Hrc Hi) as [Hr Hlast].
  assert (main s = (Raise (SystemExit (ExitInt rc)), (ensure_pip_packages s).2)) as Em.
  { unfold main. apply bind_raise.
    destruct (ensure_pip_packages s) as [r s']. cbn in Hr. by subst r. }
  rewrite Em. cbn [fst]. split; [done|]. split; [apply posix_status_exit_code|].
  split; [apply posix_status_signal|done].
Qed.

Lemma ensurer_trace_failed_probe r t pkg probe o :
  ensurer_trace r t →
  (pkg, probe) ∈ needed → o ≠ Exited 0 →
  Invoked (probe_command probe) Devnull o ∈ t →
  ∃ o', Invoked (pip_install_cmd pkg) Inherit o' ∈ t.
Proof.
  intros Ht Hin Ho Hp.
  apply list_elem_of_In in Hin, Hp.
  cbn in Hin. destruct Hin as [[= <- <-]|[[= <- <-]|[[= <- <-]|[]]]];
    trace_cases; probe_commands; unfold pip_install_cmd in *;
    cbn in Hp; scan_trace Hp;
    eexists; apply list_elem_of_In; cbn;
    repeat first [left; reflexivity | right].
Qed.

(** X3: a listed tool whose probe did not pass is handed to the package
    installer: the ensurer launches [pip install -U] for it. *)
Theorem failed_probe_installs (s : state) (pkg : string) (probe : list string) (o : outcome) :
  (pkg, probe) ∈ needed → o ≠ Exited 0 →
  Invoked (probe_command probe) Devnull o ∈ emitted ensure_pip_packages s →
  ∃ o', Invoked (pip_install_cmd pkg) Inherit o' ∈ emitted ensure_pip_packages s.
Proof.
  intros Hin Ho Hp.
  destruct (ensure_pip_packages_trace s) as [_ Ht].
  exact (ensurer_trace_failed_probe _ _ pkg probe o Ht Hin Ho Hp).
Qed.

(** X4: the exit code of the installer's self-upgrade is ignored: whatever
    [rc] it exits with, the ensurer goes on to probe pre-commit. *)
Theorem self_upgrade_code_ignored (s : state) (rc : Z) (m : machine world) :
  spawn (os s) (pip_install_cmd "pip") Inherit = (Exited rc, m) →
  ∃ o t,
    emitted ensure_pip_packages s =
      Printed (echo (pip_install_cmd "pip")) ::
      Invoked (pip_install_cmd "pip") Inherit (Exited rc) ::
      Invoked ["pre-commit"; "--version"] Devnull o :: t.
Proof.
  intros E.
  assert (∃ o t, log (ensure_pip_packages s).2 =
            log s ++ Printed (echo (pip_install_cmd "pip")) ::
                     Invoked (pip_install_cmd "pip") Inherit (Exited rc) ::
                     Invoked ["pre-commit"; "--version"] Devnull o :: t)
    as (o & t & Hl).
  { unfold ensure_pip_packages. rewrite bind_eq. run_with E. tidy.
    cbn [andb]. cbv iota.
    match goal with |- context [for_each needed ensure_one ?s0] =>
      destruct (for_each_trace needed needed_indexable s0) as (t & Hl & Ht) end.
    rewrite Hl. cbn [log]. rewrite <- app_assoc. cbn [app].
    unfold needed in Ht. inversion Ht as [|? ? ? t1 ? t2 Ht1 _|? ? ? ? t1 Ht1]; subst;
      inversion Ht1; subst; probe_commands; cbn [app]; by eexists _, _. }
  exists o, t. by apply emitted_eq.
Qed.

(** ** Further properties of the configuration writer and the probes *)

(** X5: the writer is write-once: it always returns normally, the file
    exists afterwards, no other path is touched, and running it again
    changes nothing on the machine. *)
Theorem write_precommit_config_idempotent (s : state) :
  (write_precommit_config s).1 = Ok () ∧
  is_Some (files (os (write_precommit_config s).2) !! cfg) ∧
  (∀ p, p ≠ cfg →
     files (os (write_precommit_config s).2) !! p = files (os s) !! p) ∧
  os (write_precommit_config (write_precommit_config s).2).2
    = os (write_precommit_config s).2.
Proof.
  assert (∀ s0, is_Some (files (os s0) !! cfg) →
            write_precommit_config s0 =
              (Ok (), State (os s0)
                 (log s0 ++ [Printed ">>> .pre-commit-config.yaml already exists"]))) as Hyes.
  { intros s0 Hex. unfold write_precommit_config, bind, path_exists.
    by rewrite bool_decide_eq_true_2. }
  destruct (files (os s) !! cfg) as [n|] eqn:Hcfg.
  - rewrite (Hyes s) by (by rewrite Hcfg). cbn [fst snd os].
    rewrite Hyes by (cbn [os]; by rewrite Hcfg). by rewrite Hcfg.
  - assert (write_precommit_config s =
      (Ok (), State (Machine (<[cfg := File spec_payload]> (files (os s))) (ext (os s)))
                    (log s ++ [Printed ">>> wrote .pre-commit-config.yaml"]))) as ->.
    { unfold write_precommit_config, bind, path_exists.
      rewrite bool_decide_eq_false_2; [reflexivity|]. rewrite Hcfg. by intros [? ?]. }
    cbn [fst snd os files]. split; [done|]. split.
    { rewrite lookup_insert_eq. by eexists. }
    split.
    { intros p Hp. by apply lookup_insert_ne. }
    rewrite Hyes; [done|]. cbn [os files]. rewrite lookup_insert_eq. by eexists.
Qed.

(** X9: how the loop turns a probe into a launch.  An empty probe, or a
    probe starting with ["python"] that has fewer than three elements,
    raises [IndexError] before anything is launched.  A probe starting
    with ["python"] is launched as the interpreter's own path, [-c] and
    the probe's third element: its second element and everything after
    the third are dropped.  Any other probe is launched as written. *)
Theorem probe_ok_cases :
  (∀ s : state, probe_ok [] s = (Raise IndexError, s)) ∧
  (∀ (rest : list string) (s : state),
     (length rest < 2)%nat → probe_ok ("python" :: rest) s = (Raise IndexError, s)) ∧
  (∀ (flag code : string) (rest : list string) (s : state),
     probe_ok ("python" :: flag :: code :: rest) s
       = has_cmd [sys_executable; "-c"; code] s) ∧
  (∀ (p0 : string) (rest : list string) (s : state),
     p0 ≠ "python" → probe_ok (p0 :: rest) s = has_cmd (p0 :: rest) s).
Proof.
  split; [done|]. split; [|split].
  - intros rest s Hlen. unfold probe_ok. rewrite bind_eq.
    cbn [getitem lookup list_lookup ret]. cbv iota beta.
    rewrite bool_decide_eq_false_2 by (by intros []).
    destruct rest as [|p1 [|p2 rest]]; [done|done|cbn in Hlen; lia].
  - intros flag code rest s. unfold probe_ok. rewrite bind_eq.
    cbn [getitem lookup list_lookup ret]. cbv iota beta.
    by rewrite bool_decide_eq_false_2 by (by intros []).
  - intros p0 rest s Hp0. unfold probe_ok. rewrite bind_eq.
    cbn [getitem lookup list_lookup ret]. cbv iota beta.
    by rewrite bool_decide_eq_true_2.
Qed.

(** ** Further properties of the repository ensurer and the hook step *)

Lemma ensure_git_repo_ends s :
  ∃ t, log (ensure_git_repo s).2 = log s ++ t ∧
    (((ensure_git_repo s).1 = Ok () ∧
      (last t = Some (Printed ">>> git already initialized") ∨
       last t = Some (Invoked ["git"; "init"] Inherit (Exited 0)))) ∨
     (∃ o, o ≠ Exited 0 ∧
        (ensure_git_repo s).1
          = Raise (SystemExit (ExitStr "ERROR: git is not installed or not in PATH.")) ∧
        t = [Invoked ["git"; "--version"] Devnull o]) ∨
     (∃ rc, rc ≠ 0 ∧
        (ensure_git_repo s).1 = Raise (SystemExit (ExitInt rc)) ∧
        last t = Some (Invoked ["git"; "init"] Inherit (Exited rc))) ∨
     (∃ reason,
        (ensure_git_repo s).1 = Raise (OSError reason) ∧
        last t = Some (Invoked ["git"; "init"] Inherit (LaunchFailed reason)))).
Proof.
  destruct (spawn (os s) ["git"; "--version"] Devnull) as [o1 m1] eqn:E1.
  destruct (decide (o1 = Exited 0)) as [->|Ho1].
  - destruct (spawn m1 ["git"; "rev-parse"; "--is-inside-work-tree"] Devnull)
      as [o2 m2] eqn:E2.
    destruct (decide (o2 = Exited 0)) as [->|Ho2].
    + rewrite (ensure_git_repo_inside _ _ _ E1 E2).
      eexists. split; [reflexivity|]. left. split; [done|by left].
    + destruct (spawn m2 ["git"; "init"] Inherit) as [o3 m3] eqn:E3.
      rewrite (ensure_git_repo_init _ _ _ _ _ _ E1 E2 Ho2 E3).
      eexists. split; [reflexivity|]. cbn [fst].
      destruct o3 as [rc|reason].
      * destruct (bool_decide_reflect (rc ≠ 0)) as [Hrc|Hrc].
        -- right; right; left. by exists rc.
        -- assert (rc = 0) as -> by (by destruct (decide (rc = 0))).
           left. split; [done|by right].
      * right; right; right. by exists reason.
  - rewrite (ensure_git_repo_missing _ _ _ E1 Ho1).
    eexists. split; [reflexivity|]. right; left. by exists o1.
Qed.

(** X12: the repository ensurer ends in one of four ways: it returns,
    having found a working tree or after a [git init] that exited with 0;
    it raises the message about git, having launched nothing but the
    failed [git --version] probe; it raises the non-zero exit code of
    [git init]; or [git init] could not be launched. *)
Theorem ensure_git_repo_outcomes (s : state) :
  ((ensure_git_repo s).1 = Ok () ∧
   (last (emitted ensure_git_repo s) = Some (Printed ">>> git already initialized") ∨
    last (emitted ensure_git_repo s) = Some (Invoked ["git"; "init"] Inherit (Exited 0)))) ∨
  (∃ o, o ≠ Exited 0 ∧
     (ensure_git_repo s).1
       = Raise (SystemExit (ExitStr "ERROR: git is not installed or not in PATH.")) ∧
     emitted ensure_git_repo s = [Invoked ["git"; "--version"] Devnull o]) ∨
  (∃ rc, rc ≠ 0 ∧
     (ensure_git_repo s).1 = Raise (SystemExit (ExitInt rc)) ∧
     last (emitted ensure_git_repo s) = Some (Invoked ["git"; "init"] Inherit (Exited rc))) ∨
  (∃ reason,
     (ensure_git_repo s).1 = Raise (OSError reason) ∧
     last (emitted ensure_git_repo s)
       = Some (Invoked ["git"; "init"] Inherit (LaunchFailed reason))).
Proof.
  destruct (ensure_git_repo_ends s) as (t & Hl & Ht).
  by rewrite (emitted_eq _ _ _ Hl).
Qed.

Lemma hook_half_trace probe cmd skip s :
  ∃ t, log ((ok <- has_cmd probe;;
             if ok then (run cmd false;; ret ()) else print [skip]) s).2 = log s ++ t ∧
       hook_trace probe cmd skip
         ((ok <- has_cmd probe;;
           if ok then (run cmd false;; ret ()) else print [skip]) s).1 t.
Proof.
  rewrite bind_eq. probe_step o1 m1 E1. cbv iota.
  destruct (passed o1) eqn:Hp.
  - apply passed_true in Hp as ->. rewrite bind_eq. run_step o2 m2 E2. tidy.
    destruct o2 as [rc|reason]; eexists; (split; [reflexivity|]); constructor.
  - apply passed_false in Hp. rewrite print_eq. tidy.
    eexists. split; [reflexivity|]. by constructor.
Qed.

Lemma hooks_trace_sound s :
  ∃ t, log (install_hooks_and_configure s).2 = log s ++ t ∧
       hooks_trace (install_hooks_and_configure s).1 t.
Proof.
  assert (install_hooks_and_configure s =
    ((ok <- has_cmd ["pre-commit"; "--version"];;
      if ok then (run ["pre-commit"; "install"] false;; ret ())
      else print [">>> pre-commit still not available, skipping install"]);;
     (ok <- has_cmd ["nbautoexport"; "--help"];;
      if ok then (run ["nbautoexport"; "configure"; "-f"; "script"; "notebooks"] false;; ret ())
      else print [">>> nbautoexport still not available, skipping configure"])) s) as ->.
  { unfold install_hooks_and_configure. rewrite !bind_eq.
    by destruct (has_cmd ["pre-commit"; "--version"] s) as [[[]|e] s1]. }
  rewrite bind_eq.
  destruct (hook_half_trace ["pre-commit"; "--version"] ["pre-commit"; "install"]
              ">>> pre-commit still not available, skipping install" s) as (t1 & Hl1 & Ht1).
  match type of Hl1 with log (?c s).2 = _ => destruct (c s) as [[[]|e] s1] end;
    cbn [fst snd] in *.
  - destruct (hook_half_trace ["nbautoexport"; "--help"]
                ["nbautoexport"; "configure"; "-f"; "script"; "notebooks"]
                ">>> nbautoexport still not available, skipping configure" s1)
      as (t2 & Hl2 & Ht2).
    exists (t1 ++ t2). split; [by rewrite Hl2, Hl1, app_assoc|].
    by econstructor.
  - exists t1. split; [done|]. by constructor.
Qed.

Ltac hook_cases :=
  repeat match goal with
    | H : hooks_trace _ _ |- _ => inversion H; subst; clear H
    | H : hook_trace _ _ _ _ _ |- _ => inversion H; subst; clear H
    end.

(** X8: in the hook step, a tool whose probe did not pass is skipped: the
    step prints the skip line for it and never launches its command.
    This holds for pre-commit and for nbautoexport. *)
Theorem unavailable_hook_tools_skipped (s : state) (o : outcome) :
  o ≠ Exited 0 →
  (Invoked ["pre-commit"; "--version"] Devnull o ∈ emitted install_hooks_and_configure s →
   Printed ">>> pre-commit still not available, skipping install"
     ∈ emitted install_hooks_and_configure s ∧
   ∀ io o', Invoked ["pre-commit"; "install"] io o'
              ∉ emitted install_hooks_and_configure s) ∧
  (Invoked ["nbautoexport"; "--help"] Devnull o ∈ emitted install_hooks_and_configure s →
   Printed ">>> nbautoexport still not available, skipping configure"
     ∈ emitted install_hooks_and_configure s ∧
   ∀ io o', Invoked ["nbautoexport"; "configure"; "-f"; "script"; "notebooks"] io o'
              ∉ emitted install_hooks_and_configure s).
Proof.
  intros Ho. destruct (hooks_trace_sound s) as (t & Hl & Ht).
  rewrite (emitted_eq _ _ _ Hl). clear Hl.
  revert Ht. generalize (install_hooks_and_configure s).1. intros r Ht.
  split; intros Hp; apply list_elem_of_In in Hp.
  - hook_cases; cbn in Hp; scan_trace Hp;
      (split; [apply list_elem_of_In; cbn; tauto|]);
      intros io o' Hi; apply list_elem_of_In in Hi; cbn in Hi; scan_trace Hi.
  - hook_cases; cbn in Hp; scan_trace Hp;
      (split; [apply list_elem_of_In; cbn; tauto|]);
      intros io o' Hi; apply list_elem_of_In in Hi; cbn in Hi; scan_trace Hi.
Qed.

(** X13: a command that cannot be launched ends the run even when it is
    not mandatory: [run] raises the launch error whatever [check] says,
    so a [pre-commit install] that cannot be started, after its probe
    passed, ends the script with an uncaught [OSError], exit status 1 and
    no closing line. *)
Theorem unlaunchable_command_ends_run :
  (∀ (cmd : list string) (check : bool) (s : state) (reason : string) (m : machine world),
     spawn (os s) cmd Inherit = (LaunchFailed reason, m) →
     run cmd check s =
       (Raise (OSError reason),
        State m (log s ++ [Printed (echo cmd); Invoked cmd Inherit (LaunchFailed reason)])) ∧
     exit_status (run cmd check s).1 = 1) ∧
  (∀ (s s1 s2 s3 : state) (m1 m2 : machine world) (reason : string),
     ensure_pip_packages s = (Ok (), s1) →
     ensure_git_repo s1 = (Ok (), s2) →
     write_precommit_config s2 = (Ok (), s3) →
     spawn (os s3) ["pre-commit"; "--version"] Devnull = (Exited 0, m1) →
     spawn m1 ["pre-commit"; "install"] Inherit = (LaunchFailed reason, m2) →
     main s =
       (Raise (OSError reason),
        State m2 (log s3 ++ [Invoked ["pre-commit"; "--version"] Devnull (Exited 0);
                             Printed ">>> pre-commit install";
                             Invoked ["pre-commit"; "install"] Inherit (LaunchFailed reason)])) ∧
     exit_status (main s).1 = 1 ∧
     last (log (main s).2)
       = Some (Invoked ["pre-commit"; "install"] Inherit (LaunchFailed reason))).
Proof.
  split.
  - intros cmd check s reason m E. by rewrite !(run_eq _ _ _ _ _ E).
  - intros s s1 s2 s3 m1 m2 reason Hpip Hgit Hcfg E1 E2.
    assert (main s =
      (Raise (OSError reason),
       State m2 (log s3 ++ [Invoked ["pre-commit"; "--version"] Devnull (Exited 0);
                            Printed ">>> pre-commit install";
                            Invoked ["pre-commit"; "install"] Inherit (LaunchFailed reason)])))
      as Em.
    { unfold main.
      rewrite (bind_ok _ _ _ _ _ Hpip), (bind_ok _ _ _ _ _ Hgit), (bind_ok _ _ _ _ _ Hcfg).
      apply bind_raise. unfold install_hooks_and_configure.
      rewrite bind_eq. probe_with E1. cbn [passed].
      rewrite bool_decide_eq_true_2 by done. cbv iota.
      rewrite bind_eq, bind_eq. run_with E2. tidy. reflexivity. }
    rewrite Em. split; [done|]. split; [done|].
    cbn [snd log]. by apply last_app_nonempty.
Qed.

(** ** Whole runs *)

Lemma stops_bind {A B} (c : M A) (k : A → M B) :
  stops_at_launch c → (∀ a, stops_at_launch (k a)) → stops_at_launch (bind c k).
Proof.
  intros Hc Hk s. rewrite bind_eq. destruct (Hc s) as (t & Hl & Hr).
  destruct (c s) as [[a|e] s1]; cbn [fst snd] in *.
  - destruct (Hk a s1) as (t' & Hl' & Hr'). exists (t ++ t').
    split; [by rewrite Hl', Hl, app_assoc|].
    destruct (k a s1).1 as [b|e]; [done|].
    destruct Hr' as (Hf & cmd & io & o & Hlast). split; [done|].
    exists cmd, io, o. by apply last_app_nonempty.
  - by exists t.
Qed.

Lemma stops_print args : stops_at_launch (print args).
Proof. intros s. by eexists. Qed.

Lemma stops_ensure_pip_packages : stops_at_launch ensure_pip_packages.
Proof.
  intros s. exists (emitted ensure_pip_packages s).
  split; [apply ensure_pip_packages_trace|].
  destruct (ensurer_trace_ends _ _ (proj2 (ensure_pip_packages_trace s)))
    as [->|[(pkg & rc & _ & Hrc & -> & Hlast)|(cmd & reason & -> & Hlast)]]; [done| |].
  - split; [left; by exists rc|]. by eexists _, _, _.
  - split; [right; right; by exists reason|]. by eexists _, _, _.
Qed.

Lemma stops_ensure_git_repo : stops_at_launch ensure_git_repo.
Proof.
  intros s. destruct (ensure_git_repo_ends s) as (t & Hl & Hr).
  exists t. split; [done|].
  destruct Hr
    as [[-> _]|[(o & _ & -> & Ht)|[(rc & Hrc & -> & Hlast)|(reason & -> & Hlast)]]];
    [done| | |].
  - split; [right; by left|]. rewrite Ht. by eexists _, _, _.
  - split; [left; by exists rc|]. by eexists _, _, _.
  - split; [right; right; by exists reason|]. by eexists _, _, _.
Qed.

Lemma stops_write_precommit_config : stops_at_launch write_precommit_config.
Proof.
  intros s. unfold write_precommit_config. rewrite bind_eq. unfold path_exists.
  destruct (bool_decide _); [by eexists|].
  rewrite bind_eq. unfold write_text. rewrite print_eq. by eexists.
Qed.

Lemma stops_install_hooks_and_configure : stops_at_launch install_hooks_and_configure.
Proof.
  intros s. destruct (hooks_cases s) as (r & s' & t & E & Hl & Hr). rewrite E.
  exists t. split; [done|]. destruct Hr as [->|(cmd & reason & -> & Hlast)]; [done|].
  split; [right; right; by exists reason|]. by eexists _, _, _.
Qed.

Lemma stops_main : stops_at_launch main.
Proof.
  unfold main.
  apply stops_bind; [apply stops_ensure_pip_packages|intros _].
  apply stops_bind; [apply stops_ensure_git_repo|intros _].
  apply stops_bind; [apply stops_write_precommit_config|intros _].
  apply stops_bind; [apply stops_install_hooks_and_configure|intros _].
  apply stops_print.
Qed.

Lemma main_ok_last s :
  (main s).1 = Ok () → last (log (main s).2) = Some (Printed ">>> git_tools done").
Proof.
  unfold main. rewrite bind_eq.
  destruct (ensure_pip_packages s) as [[[]|e1] s1]; cbv iota; cbn [fst snd]; [|done].
  rewrite bind_eq.
  destruct (ensure_git_repo s1) as [[[]|e2] s2]; cbv iota; cbn [fst snd]; [|done].
  rewrite bind_eq.
  destruct (write_precommit_config s2) as [[[]|e3] s3]; cbv iota; cbn [fst snd]; [|done].
  rewrite bind_eq.
  destruct (install_hooks_and_configure s3) as [[[]|e4] s4]; cbv iota; cbn [fst snd]; [|done].
  intros _. rewrite print_eq. cbn [snd log]. by rewrite last_snoc.
Qed.

(** X6: a run of the script ends in one of four ways: it returns; it
    raises the non-zero exit code of a mandatory command; it raises the
    message about git; or a command could not be launched.  The exit
    status is 0 exactly when the script returns, and the closing line is
    the last thing in the log exactly then: every failure ends the log
    with the launch that caused it. *)
Theorem main_outcomes (s : state) :
  ((main s).1 = Ok () ∨
   (∃ rc, rc ≠ 0 ∧ (main s).1 = Raise (SystemExit (ExitInt rc))) ∨
   (main s).1 = Raise (SystemExit (ExitStr "ERROR: git is not installed or not in PATH.")) ∨
   (∃ reason, (main s).1 = Raise (OSError reason))) ∧
  (exit_status (main s).1 = 0 ↔ (main s).1 = Ok ()) ∧
  (last (log (main s).2) = Some (Printed ">>> git_tools done") ↔ (main s).1 = Ok ()) ∧
  ((main s).1 ≠ Ok () → ∃ cmd io o, last (log (main s).2) = Some (Invoked cmd io o)).
Proof.
  destruct (stops_main s) as (t & Hl & Hr).
  pose proof (main_ok_last s) as Hok.
  destruct (main s) as [[[]|e] s']; cbn [fst snd] in *.
  - split; [by left|]. split; [done|]. split; [by split; [|intros _; apply Hok]|done].
  - destruct Hr as (Hf & cmd & io & o & Hlast).
    assert (last (log s') = Some (Invoked cmd io o)) as Hlast'
      by (rewrite Hl; by apply last_app_nonempty).
    split; [right; destruct Hf as [(rc & Hrc & ->)|[->|(reason & ->)]]; eauto|].
    split.
    { split; [|done]. destruct Hf as [(rc & Hrc & ->)|[->|(reason & ->)]]; cbn; done. }
    split; [|intros _; by exists cmd, io, o].
    rewrite Hlast'. by split.
Qed.

(** ** The console *)

Lemma prefixed_nil : prefixed [].
Proof. intros line Hin. cbn in Hin. by apply elem_of_nil in Hin. Qed.

Lemma prefixed_snoc_printed l line :
  String.prefix ">>> " line = true → prefixed l → prefixed (l ++ [Printed line]).
Proof.
  intros Hp Hl x Hx. unfold console in Hx. rewrite omap_app in Hx. cbn in Hx.
  apply elem_of_app in Hx as [Hx|Hx]; [by apply Hl|].
  apply list_elem_of_singleton in Hx as ->. exact Hp.
Qed.

Lemma prefixed_snoc_invoked l cmd io o :
  prefixed l → prefixed (l ++ [Invoked cmd io o]).
Proof.
  intros Hl x Hx. unfold console in Hx. rewrite omap_app in Hx. cbn in Hx.
  rewrite app_nil_r in Hx. by apply Hl.
Qed.

Lemma string_prefix_app s t : String.prefix s (s +:+ t) = true.
Proof.
  induction s as [|a s IH].
  - change (EmptyString +:+ t) with t. by destruct t.
  - change (String a s +:+ t) with (String a (s +:+ t)). cbn [String.prefix].
    by destruct (ascii_dec a a).
Qed.

Lemma prefix_ret {A} (a : A) : keeps_prefix (ret a).
Proof. by intros s. Qed.

Lemma prefix_raise {A} e : keeps_prefix (raise (A:=A) e).
Proof. by intros s. Qed.

Lemma prefix_bind {A B} (c : M A) (k : A → M B) :
  keeps_prefix c → (∀ a, keeps_prefix (k a)) → keeps_prefix (bind c k).
Proof.
  intros Hc Hk s Hs. rewrite bind_eq. specialize (Hc s Hs).
  destruct (c s) as [[a|e] s1]; cbn in Hc; [by apply Hk|done].
Qed.

Lemma prefix_print line : keeps_prefix (print [">>> " +:+ line]).
Proof.
  intros s Hs. rewrite print_eq. cbn [snd log join].
  apply prefixed_snoc_printed; [apply string_prefix_app|done].
Qed.

Lemma prefix_has_cmd cmd : keeps_prefix (has_cmd cmd).
Proof.
  intros s Hs. destruct (spawn (os s) cmd Devnull) as [o m] eqn:E.
  rewrite (has_cmd_eq _ _ _ _ E). by apply prefixed_snoc_invoked.
Qed.

Lemma prefix_run cmd check : keeps_prefix (run cmd check).
Proof.
  intros s Hs. destruct (spawn (os s) cmd Inherit) as [o m] eqn:E.
  rewrite (run_eq _ _ _ _ _ E). cbn [snd log].
  change [Printed (echo cmd); Invoked cmd Inherit o]
    with ([Printed (echo cmd)] ++ [Invoked cmd Inherit o]).
  rewrite app_assoc. apply prefixed_snoc_invoked, prefixed_snoc_printed; [|done].
  apply string_prefix_app.
Qed.

Lemma prefix_getitem l i : keeps_prefix (getitem l i).
Proof. unfold getitem. destruct (l !! i); [apply prefix_ret|apply prefix_raise]. Qed.

Lemma prefix_for_each {A} (l : list A) body :
  (∀ x, keeps_prefix (body x)) → keeps_prefix (for_each l body).
Proof.
  intros Hb. induction l as [|x l IH]; [apply prefix_ret|].
  cbn [for_each]. by apply prefix_bind.
Qed.

Ltac prefixes :=
  repeat first
    [ apply prefix_has_cmd | apply prefix_run | apply prefix_getitem
    | apply prefix_ret | apply prefix_raise | apply (prefix_print _)
    | apply prefix_bind; [|intros ?; cbv beta]
    | match goal with |- keeps_prefix (if ?b then _ else _) => destruct b end ].

Lemma prefix_ensure_one e : keeps_prefix (ensure_one e).
Proof. destruct e as [pkg probe]. unfold ensure_one, probe_ok, pip_install. prefixes. Qed.

Lemma prefix_ensure_pip_packages : keeps_prefix ensure_pip_packages.
Proof.
  unfold ensure_pip_packages. apply prefix_bind; [apply prefix_run|].
  intros _. apply prefix_for_each, prefix_ensure_one.
Qed.

Lemma prefix_ensure_git_repo : keeps_prefix ensure_git_repo.
Proof. unfold ensure_git_repo. prefixes. Qed.

Lemma prefix_write_precommit_config : keeps_prefix write_precommit_config.
Proof.
  unfold write_precommit_config. apply prefix_bind; [by intros s|].
  intros []; [apply (prefix_print _)|].
  apply prefix_bind; [by intros s|]. intros _. apply (prefix_print _).
Qed.

Lemma prefix_install_hooks_and_configure : keeps_prefix install_hooks_and_configure.
Proof. unfold install_hooks_and_configure. prefixes. Qed.

(** X7: every line the script writes to standard output with [print]
    starts with the prefix [>>> ], in every run, whether it returns or is
    cut short.  Standard error is outside this: the only message the
    script itself raises is the one about git, which carries no prefix
    (tracebacks of uncaught errors are the interpreter's). *)
Theorem console_lines_prefixed (m : machine world) :
  (∀ line : string,
     line ∈ console (log (main (initial m)).2) → String.prefix ">>> " line = true) ∧
  (∀ msg : string,
     fatal_message (main (initial m)).1 = Some msg →
     msg = "ERROR: git is not installed or not in PATH." ∧
     String.prefix ">>> " msg = false).
Proof.
  split.
  - change (prefixed (log (main (initial m)).2)).
    assert (keeps_prefix main) as Hmain.
    { unfold main.
      apply prefix_bind; [apply prefix_ensure_pip_packages|intros _].
      apply prefix_bind; [apply prefix_ensure_git_repo|intros _].
      apply prefix_bind; [apply prefix_write_precommit_config|intros _].
      apply prefix_bind; [apply prefix_install_hooks_and_configure|intros _].
      apply (prefix_print _). }
    apply Hmain, prefixed_nil.
  - intros msg Hmsg. destruct (stops_main (initial m)) as (t & _ & Hr).
    destruct (main (initial m)).1 as [[]|e]; [done|].
    destruct Hr as [[(rc & _ & ->)|[->|(reason & ->)]] _]; [done| |done].
    injection Hmsg as <-. by split.
Qed.

(** ** The working directory *)

Section Quiet.
Hypothesis Hquiet : quiet.

Lemma files_ret {A} (a : A) : keeps_files (ret a).
Proof. by intros s. Qed.

Lemma files_raise {A} e : keeps_files (raise (A:=A) e).
Proof. by intros s. Qed.

Lemma files_bind {A B} (c : M A) (k : A → M B) :
  keeps_files c → (∀ a, keeps_files (k a)) → keeps_files (bind c k).
Proof.
  intros Hc Hk s. rewrite bind_eq. specialize (Hc s).
  destruct (c s) as [[a|e] s1]; cbn [snd] in Hc; [|done].
  by rewrite Hk.
Qed.

Lemma files_print args : keeps_files (print args).
Proof. by intros s. Qed.

Lemma files_has_cmd cmd : keeps_files (has_cmd cmd).
Proof.
  intros s. destruct (spawn (os s) cmd Devnull) as [o m] eqn:E.
  rewrite (has_cmd_eq _ _ _ _ E). cbn [snd os].
  by rewrite <- (Hquiet (os s) cmd Devnull), E.
Qed.

Lemma files_run cmd check : keeps_files (run cmd check).
Proof.
  intros s. destruct (spawn (os s) cmd Inherit) as [o m] eqn:E.
  rewrite (run_eq _ _ _ _ _ E). cbn [snd os].
  by rewrite <- (Hquiet (os s) cmd Inherit), E.
Qed.

Lemma files_getitem l i : keeps_files (getitem l i).
Proof. unfold getitem. destruct (l !! i); [apply files_ret|apply files_raise]. Qed.

Lemma files_for_each {A} (l : list A) body :
  (∀ x, keeps_files (body x)) → keeps_files (for_each l body).
Proof.
  intros Hb. induction l as [|x l IH]; [apply files_ret|].
  cbn [for_each]. by apply files_bind.
Qed.

Ltac frames :=
  repeat first
    [ apply files_has_cmd | apply files_run | apply files_getitem
    | apply files_ret | apply files_raise | apply files_print
    | apply files_bind; [|intros ?; cbv beta]
    | match goal with |- keeps_files (if ?b then _ else _) => destruct b end ].

Lemma files_ensure_one e : keeps_files (ensure_one e).
Proof. destruct e as [pkg probe]. unfold ensure_one, probe_ok, pip_install. frames. Qed.

Lemma files_ensure_pip_packages : keeps_files ensure_pip_packages.
Proof.
  unfold ensure_pip_packages. apply files_bind; [apply files_run|].
  intros _. apply files_for_each, files_ensure_one.
Qed.

Lemma files_ensure_git_repo : keeps_files ensure_git_repo.
Proof. unfold ensure_git_repo. frames. Qed.

Lemma files_install_hooks_and_configure : keeps_files install_hooks_and_configure.
Proof. unfold install_hooks_and_configure. frames. Qed.

Lemma writer_eq s :
  write_precommit_config s =
    if bool_decide (is_Some (files (os s) !! cfg))
    then (Ok (), State (os s)
                   (log s ++ [Printed ">>> .pre-commit-config.yaml already exists"]))
    else (Ok (), State (Machine (<[cfg := File spec_payload]> (files (os s))) (ext (os s)))
                   (log s ++ [Printed ">>> wrote .pre-commit-config.yaml"])).
Proof.
  unfold write_precommit_config, bind, path_exists.
  by destruct (bool_decide (is_Some (files (os s) !! cfg))).
Qed.

Lemma writer_result s :
  (write_precommit_config s).1 = Ok () ∧
  is_Some (files (os (write_precommit_config s).2) !! cfg) ∧
  config_created (files (os s)) (files (os (write_precommit_config s).2)).
Proof.
  rewrite writer_eq.
  destruct (bool_decide_reflect (is_Some (files (os s) !! cfg))) as [Hex|Hno];
    cbn [fst snd os files].
  - split; [done|]. split; [done|]. by left.
  - split; [done|]. split; [rewrite lookup_insert_eq; by eexists|].
    right. split; [|done]. by apply eq_None_not_Some.
Qed.

(** X10: on a host whose child processes leave the regular files alone,
    the only change a run can make to them is creating the configuration
    file with the literal text; a configuration file present at the start
    is still there, file for file, at the end; and after a run that
    returns, the configuration file exists. *)
Theorem run_only_creates_config (s : state) :
  config_created (files (os s)) (files (os (main s).2)) ∧
  (is_Some (files (os s) !! cfg) → files (os (main s).2) = files (os s)) ∧
  ((main s).1 = Ok () → is_Some (files (os (main s).2) !! cfg)).
Proof.
  assert (config_created (files (os s)) (files (os (main s).2)) ∧
          ((main s).1 = Ok () → is_Some (files (os (main s).2) !! cfg))) as [Hcc Hok].
  { unfold main. rewrite bind_eq.
    pose proof (files_ensure_pip_packages s) as F1.
    destruct (ensure_pip_packages s) as [[[]|e1] s1]; cbn [snd fst] in *;
      [|split; [by left|done]].
    rewrite bind_eq. pose proof (files_ensure_git_repo s1) as F2.
    destruct (ensure_git_repo s1) as [[[]|e2] s2]; cbn [snd fst] in *;
      [|split; [left; congruence|done]].
    rewrite bind_eq. destruct (writer_result s2) as (R3 & X3 & C3).
    destruct (write_precommit_config s2) as [[[]|e3] s3]; cbn [snd fst] in *; [|done].
    rewrite F2, F1 in C3.
    rewrite bind_eq. pose proof (files_install_hooks_and_configure s3) as F4.
    destruct (install_hooks_and_configure s3) as [[[]|e4] s4]; cbn [snd fst] in *.
    - rewrite print_eq. cbn [snd fst os]. rewrite F4. by split.
    - rewrite F4. by split. }
  split; [done|]. split; [|done].
  intros [n Hn]. destruct Hcc as [->|[Hnone _]]; [done|congruence].
Qed.

End Quiet.

(** ** A directory that is already set up *)

(** X11: on a host where every probe passes and every command of the
    script can be launched, a run returns with status 0; the only
    commands it runs are the installer's self-upgrade, the hook installer
    and the export configurator: nothing is installed and [git init] is
    not run; and it launches the seven probes in their fixed order. *)
Theorem configured_run (s : state) :
  (∀ m cmd, (spawn m cmd Devnull).1 = Exited 0) →
  (∀ m cmd reason, (spawn m cmd Inherit).1 ≠ LaunchFailed reason) →
  (main s).1 = Ok () ∧
  exit_status (main s).1 = 0 ∧
  launched Inherit (emitted main s) =
    [ pip_install_cmd "pip";
      ["pre-commit"; "install"];
      ["nbautoexport"; "configure"; "-f"; "script"; "notebooks"] ] ∧
  launched Devnull (emitted main s) =
    [ ["pre-commit"; "--version"];
      [sys_executable; "-c"; "import nbstripout"];
      ["nbautoexport"; "--help"];
      ["git"; "--version"];
      ["git"; "rev-parse"; "--is-inside-work-tree"];
      ["pre-commit"; "--version"];
      ["nbautoexport"; "--help"] ].
Proof.
  intros Hprobe Hlaunch.
  assert (∀ cmd s0, has_cmd cmd s0 =
            (Ok true, State (spawn (os s0) cmd Devnull).2
                        (log s0 ++ [Invoked cmd Devnull (Exited 0)]))) as Hhas.
  { intros cmd s0. pose proof (Hprobe (os s0) cmd) as Hp.
    destruct (spawn (os s0) cmd Devnull) as [o m] eqn:E. cbn in Hp. subst o.
    by rewrite (has_cmd_eq _ _ _ _ E). }
  assert (∀ cmd s0, ∃ rc, run cmd false s0 =
            (Ok rc, State (spawn (os s0) cmd Inherit).2
                      (log s0 ++ [Printed (echo cmd); Invoked cmd Inherit (Exited rc)]))) as Hrun.
  { intros cmd s0. pose proof (Hlaunch (os s0) cmd) as Hl.
    destruct (spawn (os s0) cmd Inherit) as [o m] eqn:E. cbn in Hl.
    destruct o as [rc|reason]; [|by destruct (Hl reason)].
    exists rc. by rewrite (run_eq _ _ _ _ _ E). }
  assert (∃ t, log (main s).2 = log s ++ t ∧ (main s).1 = Ok () ∧
               launched Inherit t =
                 [ pip_install_cmd "pip"; ["pre-commit"; "install"];
                   ["nbautoexport"; "configure"; "-f"; "script"; "notebooks"] ] ∧
               launched Devnull t =
                 [ ["pre-commit"; "--version"];
                   [sys_executable; "-c"; "import nbstripout"];
                   ["nbautoexport"; "--help"];
                   ["git"; "--version"];
                   ["git"; "rev-parse"; "--is-inside-work-tree"];
                   ["pre-commit"; "--version"];
                   ["nbautoexport"; "--help"] ]) as (t & Hl & Hr & HI & HD).
  { assert (∀ A (a : A) (s0 : state), ret a s0 = (Ok a, s0)) as Hret by done.
    destruct (main s) as [r s'] eqn:Em. cbn [fst snd]. revert Em.
    unfold main, ensure_pip_packages, needed, ensure_git_repo,
      install_hooks_and_configure.
    cbn [for_each]. unfold ensure_one, pip_install.
    repeat first
      [ progress cbv iota beta
      | progress cbn [negb andb os log]
      | rewrite bind_eq
      | rewrite Hhas
      | rewrite print_eq
      | rewrite Hret
      | rewrite probe_ok_eq by (cbn; intros; (done || lia))
      | rewrite probe_command_version
      | rewrite probe_command_import
      | rewrite probe_command_help
      | match goal with |- context [run ?c false ?s0] =>
          let rc := fresh "rc" in destruct (Hrun c s0) as (rc & ->) end
      | rewrite writer_eq;
        match goal with |- context [bool_decide ?P] => destruct (bool_decide P) end ];
      intros [= <- <-]; cbn [log]; rewrite <- ?app_assoc; cbn [app];
      (eexists; split; [reflexivity|]); done. }
  split; [done|]. split; [by rewrite Hr|].
  by rewrite (emitted_eq _ _ _ Hl).
Qed.

End Properties.

(** * The script on concrete machines *)

(** [git init] exits with 1: [run] raises it when mandatory and returns it
    otherwise, and the whole script exits with status 1. *)
Lemma run_exit_code_propagation_witness :
  @run broken_init ["git"; "init"] true (@initial broken_init empty_dir) =
    (Raise (SystemExit (ExitInt 1)),
     @State broken_init empty_dir [Printed ">>> git init"; Invoked ["git"; "init"] Inherit (Exited 1)]) ∧
  @run broken_init ["git"; "init"] false (@initial broken_init empty_dir) =
    (Ok 1,
     @State broken_init empty_dir [Printed ">>> git init"; Invoked ["git"; "init"] Inherit (Exited 1)]) ∧
  exit_status (@main broken_init (@initial broken_init empty_dir)).1 = 1 ∧
  posix_status (@main broken_init (@initial broken_init empty_dir)).1 = 1 ∧
  posix_status (@main killed_init (@initial killed_init empty_dir)).1 = 241.
Proof.
  destruct (@run_exit_code_propagation killed_init) as [_ Hkilled].
  destruct (@run_exit_code_propagation broken_init) as [Hrun Hmain].
  destruct (Hrun ["git"; "init"] (@initial broken_init empty_dir) 1 empty_dir) as (E1 & E2 & _);
    [reflexivity|done|].
  split; [exact E1|]. split; [exact E2|].
  destruct (Hmain (@initial broken_init empty_dir)
              (@ensure_pip_packages broken_init (@initial broken_init empty_dir)).2
              empty_dir empty_dir empty_dir (Exited 128) 1) as (_ & Hst & _);
    [vm_compute; reflexivity|vm_compute; reflexivity|vm_compute; reflexivity
    |done|vm_compute; reflexivity|done|].
  split; [apply Hst; lia|]. split; [apply Hst; lia|].
  destruct (Hkilled (@initial killed_init empty_dir)
              (@ensure_pip_packages killed_init (@initial killed_init empty_dir)).2
              empty_dir empty_dir empty_dir (Exited 128) (-15)) as (_ & _ & Hsig);
    [vm_compute; reflexivity|vm_compute; reflexivity|vm_compute; reflexivity
    |done|vm_compute; reflexivity|done|].
  apply Hsig. lia.
Defined.

(** An existing configuration file, whatever it holds, is left alone. *)
Lemma write_precommit_config_keeps_existing_witness :
  files (os (@write_precommit_config present (@initial present configured_dir)).2) !! cfg
    = Some (File "repos: []").
Proof.
  destruct (@write_precommit_config_keeps_existing present (@initial present configured_dir))
    as (_ & _ & E).
  - exists (File "repos: []"). vm_compute. reflexivity.
  - rewrite E. vm_compute. reflexivity.
Defined.

(** Without git the script stops with the message and status 1. *)
Lemma git_missing_aborts_witness :
  fatal_message (@main gitless (@initial gitless empty_dir)).1
    = Some "ERROR: git is not installed or not in PATH." ∧
  exit_status (@main gitless (@initial gitless empty_dir)).1 = 1.
Proof.
  destruct (@git_missing_aborts gitless (@initial gitless empty_dir)
              (@ensure_pip_packages gitless (@initial gitless empty_dir)).2
              (LaunchFailed "FileNotFoundError") empty_dir)
    as (_ & Hmsg & _ & Hst & _); [vm_compute; reflexivity|vm_compute; reflexivity|done|].
  split; [exact Hmsg|exact Hst].
Defined.

(** The hook installer exits with 3 and the export configurator with 1,
    and the script still finishes with its closing line and status 0. *)
Lemma hooks_exit_codes_never_abort_witness :
  last (log (@main failing_hooks (@initial failing_hooks empty_dir)).2)
    = Some (Printed ">>> git_tools done") ∧
  exit_status (@main failing_hooks (@initial failing_hooks empty_dir)).1 = 0 ∧
  Invoked ["pre-commit"; "install"] Inherit (Exited 3)
    ∈ log (@main failing_hooks (@initial failing_hooks empty_dir)).2.
Proof.
  destruct (@hooks_exit_codes_never_abort failing_hooks) as [_ Hmain].
  pose (s0 := @initial failing_hooks empty_dir).
  pose (s1 := (@ensure_pip_packages failing_hooks s0).2).
  pose (s2 := (@ensure_git_repo failing_hooks s1).2).
  pose (s3 := (@write_precommit_config failing_hooks s2).2).
  destruct (Hmain s0 s1 s2 s3) as (s4 & _ & _ & Hlast & Hst);
    [vm_compute; reflexivity|vm_compute; reflexivity|vm_compute; reflexivity| |].
  - intros cmd reason Hin. apply list_elem_of_In in Hin.
    vm_compute in Hin. intuition discriminate.
  - split; [exact Hlast|]. split; [exact Hst|].
    apply list_elem_of_In. vm_compute. tauto.
Defined.

(** With every tool present and the directory a repository, nothing is
    installed and nothing is initialised. *)
Lemma passed_probe_skips_action_witness :
  (Invoked [py; "-m"; "pip"; "install"; "-U"; "nbstripout"] Inherit (Exited 0)
     ∉ (@emitted present () (@ensure_pip_packages present) (@initial present empty_dir))) ∧
  (Invoked ["git"; "init"] Inherit (Exited 0)
     ∉ (@emitted present () (@ensure_git_repo present) (@initial present empty_dir))).
Proof.
  destruct (@passed_probe_skips_action present) as [Htool Hgit]. split.
  - apply (Htool (@initial present empty_dir) "nbstripout" ["python"; "-c"; "import nbstripout"]).
    + apply list_elem_of_In. vm_compute. tauto.
    + apply list_elem_of_In. vm_compute. tauto.
  - apply (Hgit (@initial present empty_dir)).
    apply list_elem_of_In. vm_compute. tauto.
Defined.

(** With every tool present the ensurer launches its three probes. *)
Lemma ensure_pip_packages_probe_order_witness :
  launched Devnull (@emitted present () (@ensure_pip_packages present) (@initial present empty_dir)) =
    [ ["pre-commit"; "--version"]; [py; "-c"; "import nbstripout"]; ["nbautoexport"; "--help"] ].
Proof.
  destruct (@ensure_pip_packages_probe_order present) as (_ & _ & _ & _ & _ & _ & Hrun).
  destruct (Hrun (@initial present empty_dir)) as [_ Hall].
  apply Hall. vm_compute. reflexivity.
Defined.

(** The help-flag probe of nbautoexport is no version-flag invocation:
    of the three probes launched, one carries [--version], not two.  And
    when installing pre-commit fails, the run ends after the first probe:
    the other two tools are not probed. *)
Lemma version_flag_probes_not_two :
  (List.filter is_version_probe
     (launched Devnull (log (@ensure_pip_packages present (@initial present empty_dir)).2))
     = [ ["pre-commit"; "--version"] ] ∧
   length (List.filter is_version_probe
     (launched Devnull (log (@ensure_pip_packages present (@initial present empty_dir)).2)))
     ≠ 2%nat) ∧
  ((@ensure_pip_packages broken_pip (@initial broken_pip empty_dir)).1
     = Raise (SystemExit (ExitInt 1)) ∧
   launched Devnull (log (@ensure_pip_packages broken_pip (@initial broken_pip empty_dir)).2)
     = [ ["pre-commit"; "--version"] ]).
Proof. repeat split; by vm_compute. Qed.

(** [git --version] exits with 0 and the probe answers [true]. *)
Lemma has_cmd_never_raises_witness :
  @has_cmd present ["git"; "--version"] (@initial present empty_dir) =
    (Ok true, @State present empty_dir [Invoked ["git"; "--version"] Devnull (Exited 0)]).
Proof.
  destruct (@has_cmd_never_raises present ["git"; "--version"] (@initial present empty_dir)
              (Exited 0) empty_dir) as (b & E & Hb & _); [vm_compute; reflexivity|].
  rewrite E. by rewrite (proj2 Hb eq_refl).
Defined.

(** In an empty directory the file is created with the literal text. *)
Lemma write_precommit_config_creates_witness :
  files (os (@write_precommit_config present (@initial present empty_dir)).2) !! cfg
    = Some (File spec_payload).
Proof.
  destruct (@write_precommit_config_creates present (@initial present empty_dir))
    as (_ & E & _); [vm_compute; reflexivity|exact E].
Defined.

(** The first probe of a run follows the installer's self-upgrade, not a
    console line announcing the probe. *)
Lemma probes_are_not_echoed :
  ¬ echoed every_launch (log (@main present (@initial present empty_dir)).2).
Proof.
  intros Hall.
  destruct (Hall 2%nat ["pre-commit"; "--version"] Devnull (Exited 0))
    as (j & [= <-] & Hj); [vm_compute; reflexivity|done|].
  vm_compute in Hj. discriminate Hj.
Qed.

(** The interpreter is [/usr/bin/python3]; nothing launched starts with
    the bare word [python]. *)
Lemma import_probe_uses_sys_executable_witness :
  head [py; "-c"; "import nbstripout"] ≠ Some "python".
Proof.
  destruct (@import_probe_uses_sys_executable present) as (_ & _ & _ & Hno).
  apply (Hno ltac:(done) (@initial present empty_dir)
           [py; "-c"; "import nbstripout"] Devnull (Exited 0)).
  apply list_elem_of_In. vm_compute. tauto.
Defined.

(** A complete run keeps the console honest about the commands it runs. *)
Lemma run_commands_echoed_witness :
  echoed only_inherit (log (@main failing_hooks (@initial failing_hooks empty_dir)).2).
Proof. apply (@run_commands_echoed failing_hooks). Defined.

(** ** Further runs on concrete machines *)

(** Installing pre-commit exits with 1 and so does the script. *)
Lemma failed_install_ends_run_witness :
  exit_status (@main broken_pip (@initial broken_pip empty_dir)).1 = 1 ∧
  posix_status (@main broken_pip (@initial broken_pip empty_dir)).1 = 1.
Proof.
  destruct (@failed_install_ends_run broken_pip (@initial broken_pip empty_dir) "pre-commit" 1)
    as (_ & Hst & _).
  - apply list_elem_of_In. cbn. tauto.
  - done.
  - apply list_elem_of_In. vm_compute. tauto.
  - apply Hst. lia.
Defined.

(** pre-commit cannot be found, so the ensurer installs it. *)
Lemma failed_probe_installs_witness :
  ∃ o', Invoked [py; "-m"; "pip"; "install"; "-U"; "pre-commit"] Inherit o'
          ∈ @emitted stubborn () (@ensure_pip_packages stubborn) (@initial stubborn empty_dir).
Proof.
  apply (@failed_probe_installs stubborn (@initial stubborn empty_dir)
           "pre-commit" ["pre-commit"; "--version"] (LaunchFailed "FileNotFoundError")).
  - apply list_elem_of_In. cbn. tauto.
  - done.
  - apply list_elem_of_In. vm_compute. tauto.
Defined.

(** The self-upgrade exits with 2 and pre-commit is probed all the same. *)
Lemma self_upgrade_code_ignored_witness :
  ∃ o t,
    @emitted stale_pip () (@ensure_pip_packages stale_pip) (@initial stale_pip empty_dir) =
      Printed ">>> /usr/bin/python3 -m pip install -U pip" ::
      Invoked [py; "-m"; "pip"; "install"; "-U"; "pip"] Inherit (Exited 2) ::
      Invoked ["pre-commit"; "--version"] Devnull o :: t.
Proof.
  apply (@self_upgrade_code_ignored stale_pip (@initial stale_pip empty_dir) 2 empty_dir).
  vm_compute. reflexivity.
Defined.

(** The closing line carries the prefix like every other line. *)
Lemma console_lines_prefixed_witness :
  String.prefix ">>> " ">>> git_tools done" = true ∧
  String.prefix ">>> " "ERROR: git is not installed or not in PATH." = false.
Proof.
  destruct (@console_lines_prefixed present empty_dir) as [Hout _].
  destruct (@console_lines_prefixed gitless empty_dir) as [_ Herr].
  split.
  - apply (Hout ">>> git_tools done").
    apply list_elem_of_In. vm_compute. tauto.
  - apply (Herr "ERROR: git is not installed or not in PATH.").
    vm_compute. reflexivity.
Defined.

(** pre-commit is still missing after its installation: the hook step
    says so and does not try to run it. *)
Lemma unavailable_hook_tools_skipped_witness :
  Printed ">>> pre-commit still not available, skipping install"
    ∈ @emitted stubborn () (@install_hooks_and_configure stubborn)
        (@initial stubborn empty_dir).
Proof.
  destruct (@unavailable_hook_tools_skipped stubborn (@initial stubborn empty_dir)
              (LaunchFailed "FileNotFoundError")) as [Hpc _]; [done|].
  apply Hpc. apply list_elem_of_In. vm_compute. tauto.
Defined.

(** A two-element probe starting with [python] cannot be indexed. *)
Lemma probe_ok_cases_witness :
  @probe_ok present ["python"; "-c"] (@initial present empty_dir)
    = (Raise IndexError, @initial present empty_dir) ∧
  @probe_ok present ["git"; "--version"] (@initial present empty_dir)
    = @has_cmd present ["git"; "--version"] (@initial present empty_dir).
Proof.
  destruct (@probe_ok_cases present) as (_ & Hshort & _ & Hother). split.
  - apply (Hshort ["-c"]). cbn. lia.
  - by apply Hother.
Defined.

(** An existing configuration survives a whole run. *)
Lemma run_only_creates_config_witness :
  files (os (@main obliging (@initial obliging configured_dir)).2) = files configured_dir.
Proof.
  destruct (@run_only_creates_config obliging) with (s := @initial obliging configured_dir)
    as (_ & Hkeep & _).
  - by intros m cmd io.
  - apply Hkeep. exists (File "repos: []"). vm_compute. reflexivity.
Defined.

(** On a host where everything succeeds the script returns. *)
Lemma configured_run_witness :
  (@main obliging (@initial obliging empty_dir)).1 = Ok () ∧
  launched Inherit (@emitted obliging () (@main obliging) (@initial obliging empty_dir)) =
    [ [py; "-m"; "pip"; "install"; "-U"; "pip"];
      ["pre-commit"; "install"];
      ["nbautoexport"; "configure"; "-f"; "script"; "notebooks"] ].
Proof.
  destruct (@configured_run obliging (@initial obliging empty_dir)) as (Hok & _ & Hrun & _).
  - by intros m cmd.
  - by intros m cmd reason.
  - split; [exact Hok|exact Hrun].
Defined.

(** [pre-commit install] cannot be launched: the script ends with status 1. *)
Lemma unlaunchable_command_ends_run_witness :
  exit_status (@main vanishing (@initial vanishing empty_dir)).1 = 1.
Proof.
  destruct (@unlaunchable_command_ends_run vanishing) as [_ Hmain].
  pose (s0 := @initial vanishing empty_dir).
  pose (s1 := (@ensure_pip_packages vanishing s0).2).
  pose (s2 := (@ensure_git_repo vanishing s1).2).
  pose (s3 := (@write_precommit_config vanishing s2).2).
  destruct (Hmain s0 s1 s2 s3 (os s3) (os s3) "FileNotFoundError") as (_ & Hst & _);
    [vm_compute; reflexivity..|exact Hst].
Defined.
